(** * metabolic_tracker: unit normalisation and GKI derivation

    A shallow embedding of [prepare_df_plot] and of the embedded self-tests of
    [metabolic_app.py].  Python's [float] (and the [float64] columns of a
    pandas frame) is IEEE-754 binary64; it is modelled by the executable
    binary64 specification of the standard library ([SpecFloat], precision 53,
    [emax] 1024), so that every quotient and product below is rounded exactly
    as the program rounds it. *)

From Stdlib Require Import ZArith QArith Qabs Qpower Lia Lqa List String Bool.
From Stdlib Require Import Floats.SpecFloat.
Import ListNotations.

Local Open Scope Z_scope.

(** ** Binary64 arithmetic *)

Module F64.

Definition prec : Z := 53.
Definition emax : Z := 1024.

Definition float : Type := spec_float.

Definition mul : float -> float -> float := SFmul prec emax.
Definition div : float -> float -> float := SFdiv prec emax.
Definition sub : float -> float -> float := SFsub prec emax.
Definition abs : float -> float := SFabs.
Definition ltb : float -> float -> bool := SFltb.
Definition valid : float -> bool := valid_binary prec emax.

(** A Python [int] that meets a float in an arithmetic operation is
    converted to the nearest binary64 value (exactly, below [2^53]). *)
Definition of_Z (n : Z) : float := binary_normalize prec emax n 0 false.

(** The decimal literal [n/d] with [n] and [d] below [2^53]: both are
    exact binary64 integers and IEEE division is correctly rounded, so the
    quotient is the binary64 value nearest to the decimal, which is what
    Python's parser produces for the literal. *)
Definition of_decimal (n : Z) (d : positive) : float :=
  div (of_Z n) (of_Z (Zpos d)).

Definition is_finite (x : float) : bool :=
  match x with
  | S754_zero _ | S754_finite _ _ _ => true
  | S754_infinity _ | S754_nan => false
  end.

Definition is_zero (x : float) : bool :=
  match x with
  | S754_zero _ => true
  | _ => false
  end.

(** [2^e] as a rational, for any integer exponent. *)
Definition pow2 (e : Z) : Q := (2 ^ e)%Q.

(** The rational a finite float denotes; [None] for infinities and NaN. *)
Definition to_Q (x : float) : option Q :=
  match x with
  | S754_zero _ => Some 0%Q
  | S754_finite s m e =>
      Some (inject_Z (if s then Zneg m else Zpos m) * pow2 e)%Q
  | S754_infinity _ | S754_nan => None
  end.

(** Total variant, reading the non-finite values as [0]; only used next to
    a proof of finiteness. *)
Definition value (x : float) : Q :=
  match to_Q x with Some q => q | None => 0%Q end.

End F64.

Definition float : Type := F64.float.

(** ** Constants of the program *)

(** The literal [18.01559] (glucose molar mass over ten). *)
Definition M : float := F64.of_decimal 1801559 100000.

(** ** Data model *)

(** The parsed [Datetime] column ([%d/%m/%Y %H:%M]). *)
Record datetime := mk_datetime {
  day : Z; month : Z; year : Z; hour : Z; minute : Z
}.

(** One row of the input frame. *)
Record reading := mk_reading {
  Date : string;
  Heure : string;
  Datetime : datetime;
  Glycemie : float;
  Cetonemie : float
}.

(** One row of the frame returned by [prepare_df_plot]: the copied input row
    and the three assigned columns. *)
Record derived := mk_derived {
  source : reading;
  Glycemie_affichee : float;
  Cetonemie_affichee : float;
  GKI : float
}.

Definition DataFrame := list reading.
Definition Series := list float.

(** ** Column operations of pandas used by the program *)

(** [s / c] and [s * c] for a scalar [c]. *)
Definition series_div_scalar (s : Series) (c : float) : Series :=
  map (fun v => F64.div v c) s.

Definition series_mul_scalar (s : Series) (c : float) : Series :=
  map (fun v => F64.mul v c) s.

(** [a / b] for two columns over the same index. *)
Definition series_div (a b : Series) : Series :=
  map (fun p => F64.div (fst p) (snd p)) (combine a b).

(** [df_plot[c1], df_plot[c2], df_plot[c3] = ...]: the three new columns are
    attached to the copy of the frame, position by position. *)
Fixpoint assign (df : DataFrame) (ga ka gki : Series) : list derived :=
  match df, ga, ka, gki with
  | r :: df', a :: ga', k :: ka', g :: gki' =>
      mk_derived r a k g :: assign df' ga' ka' gki'
  | _, _, _, _ => []
  end.

(** ** [prepare_df_plot] *)

Local Open Scope string_scope.

(** Lines 43-45. *)
Definition glycemie_affichee (df : DataFrame) (unit_glucose : string) : Series :=
  if String.eqb unit_glucose "mmol/L"
  then series_div_scalar (map Glycemie df) M
  else map Glycemie df.

(** Lines 49-57: the local [gly_mmol], numerator of the GKI. *)
Definition gly_mmol (df : DataFrame) (unit_glucose gki_mode : string) : Series :=
  if String.eqb gki_mode "Full mmol" then
    if String.eqb unit_glucose "mg/dL"
    then series_div_scalar (map Glycemie df) M
    else map Glycemie df
  else
    let gly :=
      if String.eqb unit_glucose "mg/dL"
      then map Glycemie df
      else series_mul_scalar (map Glycemie df) M in
    series_div_scalar gly M.

(** What [print(df_plot[["Glycémie", "Cétonémie", "GKI"]])] shows. *)
Definition printed := list (float * float * float).

Definition print_columns (out : list derived) : printed :=
  map (fun d => (Glycemie (source d), Cetonemie (source d), GKI d)) out.

(** The function returns the new frame; the second component is what it
    wrote on standard output ([debug]). *)
Definition prepare_df_plot (df : DataFrame) (unit_glucose unit_ketone gki_mode : string)
    (debug : bool) : list derived * list printed :=
  let df_plot := df in
  let col_ga := glycemie_affichee df_plot unit_glucose in
  let col_ka := map Cetonemie df_plot in
  let col_gki := series_div (gly_mmol df_plot unit_glucose gki_mode) (map Cetonemie df_plot) in
  let df_plot' := assign df_plot col_ga col_ka col_gki in
  (df_plot', if debug then [print_columns df_plot'] else []).

(** The returned frame. *)
Definition returned (res : list derived * list printed) : list derived := fst res.

(** ** The embedded self-tests *)

(** Lines 74-75, for any [mg_dl]. *)
Definition toMmol (mg_dl : float) : float := F64.div mg_dl M.
Definition toMgdl (mmol_l : float) : float := F64.mul mmol_l M.

(** [abs(a - b) < tol], the comparison of every assertion. *)
Definition close (a b tol : float) : bool :=
  F64.ltb (F64.abs (F64.sub a b)) tol.

Definition test_glucose_conversion : bool :=
  let mg_dl := F64.of_Z 90 in
  let mmol_l := F64.div mg_dl M in
  let reconverted := F64.mul mmol_l M in
  close reconverted mg_dl (F64.of_decimal 1 10).

Definition test_data : DataFrame :=
  [ mk_reading "01/01/2024" "08:00" (mk_datetime 1 1 2024 8 0)
      (F64.of_Z 90) (F64.of_decimal 15 10);
    mk_reading "02/01/2024" "08:00" (mk_datetime 2 1 2024 8 0)
      (F64.of_Z 108) (F64.of_decimal 20 10) ].

Definition expected_gki : Series :=
  [ F64.div (F64.div (F64.of_Z 90) M) (F64.of_decimal 15 10);
    F64.div (F64.div (F64.of_Z 108) M) (F64.of_decimal 20 10) ].

Definition all_close (xs ys : Series) (tol : float) : bool :=
  forallb (fun p => close (fst p) (snd p) tol) (combine xs ys).

Definition test_gki_calculation : bool :=
  let df1 := returned (prepare_df_plot test_data "mg/dL" "mmol/L" "Standard (mg/dL/mmol)" true) in
  let df2 := returned (prepare_df_plot test_data "mg/dL" "mmol/L" "Full mmol" true) in
  all_close (map GKI df1) expected_gki (F64.of_decimal 1 1000000)
  && all_close (map GKI df2) expected_gki (F64.of_decimal 1 1000000).

Definition test_df : DataFrame :=
  [ mk_reading "01/01/2024" "12:00" (mk_datetime 1 1 2024 12 0)
      (F64.of_Z 90) (F64.of_decimal 15 10) ].

Definition test_prepare_df_plot : bool :=
  let out := returned (prepare_df_plot test_df "mg/dL" "mmol/L" "Standard (mg/dL/mmol)" false) in
  let expected := F64.div (F64.div (F64.of_Z 90) M) (F64.of_decimal 15 10) in
  match out with
  | d :: _ => close (GKI d) expected (F64.of_decimal 1 1000000)
  | [] => false
  end.

(** ** Row-wise reading of the column program *)

(** The value of the local [gly_mmol] (lines 49-57) at a row whose glucose
    cell is [glucose_raw]. *)
Definition row_gly_mmol (unit_glucose gki_mode : string) (glucose_raw : float) : float :=
  if String.eqb gki_mode "Full mmol" then
    if String.eqb unit_glucose "mg/dL"
    then F64.div glucose_raw M
    else glucose_raw
  else
    F64.div (if String.eqb unit_glucose "mg/dL"
             then glucose_raw
             else F64.mul glucose_raw M) M.

(** The row that [prepare_df_plot] returns for the input row [r]. *)
Definition row_derived (unit_glucose gki_mode : string) (r : reading) : derived :=
  mk_derived r
    (if String.eqb unit_glucose "mmol/L" then F64.div (Glycemie r) M else Glycemie r)
    (Cetonemie r)
    (F64.div (row_gly_mmol unit_glucose gki_mode (Glycemie r)) (Cetonemie r)).

(** The two labels of the mode selector of the interface (line 146). *)
Definition mode_standard : string := "Standard (mg/dL/mmol)".
Definition mode_full_mmol : string := "Full mmol".

(** A reading with the given glucose and ketone cells. *)
Definition reading_of (glucose_raw ketone_raw : float) : reading :=
  mk_reading "01/01/2024" "12:00" (mk_datetime 1 1 2024 12 0) glucose_raw ketone_raw.

(** ** Specification vocabulary for the rounding analysis *)

Local Open Scope Z_scope.

(** [located mrs N D]: the shift record [mrs] holds the integer part of the
    non-negative rational [N/D], and its round and sticky bits say where the
    fractional part lies with respect to one half. *)
Definition located (mrs : shr_record) (N D : Z) : Prop :=
  0 < D /\ 0 <= N /\ shr_m mrs = N / D /\
  shr_r mrs = (D <=? 2 * (N mod D)) /\
  shr_s mrs = negb ((N mod D =? 0) || (2 * (N mod D) =? D)).

(** The unit roundoff [2^-53]. *)
Definition u : Q := F64.pow2 (- F64.prec).

(** ** Classification of cells *)

Definition is_nan (x : float) : bool :=
  match x with
  | S754_nan => true
  | _ => false
  end.

(** The sign bit of a cell ([true] for negative); NaN carries none here. *)
Definition sign_bit (x : float) : bool :=
  match x with
  | S754_zero s | S754_infinity s | S754_finite s _ _ => s
  | S754_nan => false
  end.

(** ** The password gate (lines 11-21) *)

(** How one run of the script leaves the gate: [st.rerun()], [st.stop()]
    (after [st.error] or not), the lookup [st.secrets["APP_PASSWORD"]]
    failing on a missing key, or falling through to the rest of the page. *)
Inductive outcome :=
| Rerun
| Stop (error_shown : bool)
| SecretMissing
| Continue.

(** One run.  [session] is [st.session_state]: [None] while the key
    ["authenticated"] is absent; [password] is what the text input holds
    (empty when nothing was typed); [secret] is the configured
    ["APP_PASSWORD"], if any.  [password and ...] short-circuits on the
    empty string, so the secret is only looked up for a non-empty input. *)
Definition gate (session : option bool) (password : string) (secret : option string)
  : option bool * outcome :=
  let authenticated := match session with Some b => b | None => false end in
  if negb authenticated then
    if negb (String.eqb password "") then
      match secret with
      | None => (Some false, SecretMissing)
      | Some app_password =>
          if String.eqb password app_password
          then (Some true, Rerun)
          else (Some false, Stop true)
      end
    else (Some false, Stop false)
  else (Some authenticated, Continue).

(** Successive runs of the script within one browser session, each with the
    content of the text input at that run. *)
Fixpoint runs (session : option bool) (secret : option string) (inputs : list string)
  : option bool * list outcome :=
  match inputs with
  | [] => (session, [])
  | password :: inputs' =>
      let '(session', o) := gate session password secret in
      let '(session'', os) := runs session' secret inputs' in
      (session'', o :: os)
  end.

(** ** The long table of the chart (lines 155-160) *)

Record long_row := mk_long {
  long_Datetime : datetime;
  Parametre : string;
  Valeur : float
}.

(** [df_plot.melt(id_vars="Datetime", value_vars=[...])]: one block of rows
    per value column, in the order of [value_vars], each block in the row
    order of the frame. *)
Definition melt (df_plot : list derived) : list long_row :=
  map (fun d => mk_long (Datetime (source d)) "Glycémie" (Glycemie (source d))) df_plot
  ++ map (fun d => mk_long (Datetime (source d)) "Cétonémie" (Cetonemie (source d))) df_plot
  ++ map (fun d => mk_long (Datetime (source d)) "GKI" (GKI d)) df_plot.

(** The points of the line drawn for one value of the colour column
    ["Paramètre"]: the rows carrying it, in table order. *)
Definition trace (parametre : string) (df_long : list long_row)
  : list (datetime * float) :=
  map (fun r => (long_Datetime r, Valeur r))
      (filter (fun r => String.eqb (Parametre r) parametre) df_long).

(** ** The statistics (lines 211-216) *)

(** [mean] stands for pandas' [Series.mean] and [fmt1], [fmt2] for the
    format specifications [.1f] and [.2f]; the four metrics are the row
    count and three formatted means. *)
Definition metrics (mean : Series -> float) (fmt1 fmt2 : float -> string)
    (df_plot : list derived) (unit_glucose unit_ketone : string)
  : nat * string * string * string :=
  (List.length df_plot,
   fmt1 (mean (map (fun d => Glycemie (source d)) df_plot)) ++ " " ++ unit_glucose,
   fmt2 (mean (map (fun d => Cetonemie (source d)) df_plot)) ++ " " ++ unit_ketone,
   fmt2 (mean (map GKI df_plot))).

(** * Theorems *)

(** ** Number of binary digits *)

Lemma digits2_pos_size (p : positive) : digits2_pos p = Pos.size p.
Proof. induction p; simpl; congruence. Qed.

Lemma digits2_pos_bounds (p : positive) :
  2 ^ (Zpos (digits2_pos p) - 1) <= Zpos p < 2 ^ Zpos (digits2_pos p).
Proof.
  rewrite digits2_pos_size. split.
  - pose proof (Pos.size_le p) as H.
    assert (H2 : 2 ^ Zpos (Pos.size p) <= 2 * Zpos p).
    { change 2 with (Zpos 2) at 1. rewrite <- Pos2Z.inj_pow. lia. }
    replace (Zpos (Pos.size p)) with (Zpos (Pos.size p) - 1 + 1) in H2 by lia.
    rewrite Z.pow_add_r in H2 by lia. lia.
  - pose proof (Pos.size_gt p) as H.
    change 2 with (Zpos 2). rewrite <- Pos2Z.inj_pow. lia.
Qed.

Lemma digits2_pos_unique (p : positive) (k : Z) :
  2 ^ (k - 1) <= Zpos p < 2 ^ k -> Zpos (digits2_pos p) = k.
Proof.
  intros [Hlo Hhi]. pose proof (digits2_pos_bounds p) as [Blo Bhi].
  set (d := Zpos (digits2_pos p)) in *.
  assert (0 < k).
  { destruct (Z.le_gt_cases k 0) as [Hk|Hk]; [|exact Hk].
    destruct (Z.eq_dec k 0) as [->|Hne]; [simpl in Hhi; lia|].
    rewrite (Z.pow_neg_r 2 k) in Hhi by lia. lia. }
  destruct (Z.lt_trichotomy d k) as [Hlt|[Heq|Hgt]]; [|exact Heq|].
  - assert (2 ^ d <= 2 ^ (k - 1)) by (apply Z.pow_le_mono_r; lia). lia.
  - assert (2 ^ k <= 2 ^ (d - 1)) by (apply Z.pow_le_mono_r; lia). lia.
Qed.

(** ** Right shifts keep track of the discarded bits *)

Lemma shr_1_spec (m : Z) (r s : bool) :
  0 <= m ->
  shr_1 (Build_shr_record m r s) = Build_shr_record (m / 2) (Z.odd m) (r || s).
Proof.
  intros Hm. destruct m as [|[p|p|]|p]; try lia; simpl shr_1; f_equal.
  - apply Z.div_unique with 1; lia.
  - apply Z.div_unique with 0; lia.
Qed.

Lemma shr_1_located (mrs : shr_record) (N D : Z) :
  located mrs N D -> located (shr_1 mrs) N (D * 2).
Proof.
  destruct mrs as [m r s]. intros (HD & HN & Hm & Hr & Hs).
  cbn [shr_m shr_r shr_s] in Hm, Hr, Hs.
  pose proof (Z.mod_pos_bound N D HD) as Hb.
  pose proof (Z.div_pos N D HN HD) as Hq0.
  rewrite shr_1_spec by lia. unfold located. cbn [shr_m shr_r shr_s].
  assert (Hq : N / (D * 2) = m / 2) by (rewrite <- Z.div_div, Hm; lia).
  assert (Hrem : N mod (D * 2) = N mod D + D * (m mod 2))
    by (rewrite Hm; apply Z.rem_mul_r; lia).
  assert (Hrs : (r || s)%bool = negb (N mod D =? 0)).
  { subst r s.
    destruct (Z.leb_spec D (2 * (N mod D))), (Z.eqb_spec (N mod D) 0),
      (Z.eqb_spec (2 * (N mod D)) D); simpl; try reflexivity; lia. }
  rewrite Hq, Hrem, Hrs. clear Hq Hrem Hr Hs Hrs.
  set (rho := N mod D) in *.
  rewrite (Zodd_mod m).
  pose proof (Z.mod_pos_bound m 2 ltac:(lia)) as Hm2.
  assert (Hc : m mod 2 = 0 \/ m mod 2 = 1) by lia.
  repeat split; lia.
Qed.

Lemma iter_pos_shr_1_located (p : positive) :
  forall mrs N D, located mrs N D ->
  located (iter_pos shr_1 p mrs) N (D * 2 ^ Zpos p).
Proof.
  induction p as [p IH|p IH|]; intros mrs N D H; simpl iter_pos.
  - replace (D * 2 ^ Zpos p~1) with (D * 2 * 2 ^ Zpos p * 2 ^ Zpos p).
    + apply IH, IH, shr_1_located, H.
    + replace (Zpos p~1) with (1 + Zpos p + Zpos p) by lia.
      rewrite !Z.pow_add_r by lia. change (2 ^ 1) with 2. ring.
  - replace (D * 2 ^ Zpos p~0) with (D * 2 ^ Zpos p * 2 ^ Zpos p).
    + apply IH, IH, H.
    + replace (Zpos p~0) with (Zpos p + Zpos p) by lia.
      rewrite Z.pow_add_r by lia. ring.
  - change (2 ^ 1) with 2. apply shr_1_located, H.
Qed.

Lemma shr_located (mrs : shr_record) (e n N D : Z) :
  located mrs N D -> 0 <= n ->
  located (fst (shr mrs e n)) N (D * 2 ^ n) /\ snd (shr mrs e n) = e + n.
Proof.
  intros H Hn. destruct n as [|p|p]; try lia; simpl shr; simpl fst; simpl snd.
  - rewrite Z.mul_1_r. split; [exact H | lia].
  - split; [apply iter_pos_shr_1_located, H | reflexivity].
Qed.

Lemma located_exact (m : Z) :
  0 <= m -> located (shr_record_of_loc m loc_Exact) m 1.
Proof.
  intros Hm. unfold located. simpl.
  rewrite Z.div_1_r, Z.mod_1_r. repeat split; lia.
Qed.

(** ** Rounding to nearest, ties to even *)

Lemma round_nearest_even_located (mrs : shr_record) (N D : Z) :
  located mrs N D ->
  let m' := round_nearest_even (shr_m mrs) (loc_of_shr_record mrs) in
  N / D <= m' <= N / D + 1 /\ Z.abs (2 * m' * D - 2 * N) <= D.
Proof.
  destruct mrs as [m r s]. intros (HD & HN & Hm & Hr & Hs).
  cbn [shr_m shr_r shr_s] in Hm, Hr, Hs. cbn [shr_m].
  pose proof (Z.mod_pos_bound N D HD) as Hb.
  pose proof (Z.div_mod N D ltac:(lia)) as Hdm.
  rewrite <- Hm in *. set (rho := N mod D) in *.
  assert (HmD : N = D * m + rho) by lia. clearbody rho. clear Hdm Hm.
  subst N.
  assert (E0 : 2 * m * D - 2 * (D * m + rho) = - (2 * rho)) by ring.
  assert (E1 : 2 * (m + 1) * D - 2 * (D * m + rho) = 2 * D - 2 * rho) by ring.
  destruct r, s; cbn [round_nearest_even loc_of_shr_record];
    try destruct (Z.even m); rewrite ?E0, ?E1; lia.
Qed.

Lemma Zdigits2_bounds (m : Z) :
  0 < m -> 2 ^ (Zdigits2 m - 1) <= m < 2 ^ Zdigits2 m.
Proof.
  destruct m as [|p|p]; try lia. intros _. apply digits2_pos_bounds.
Qed.

Lemma Zdigits2_unique (m k : Z) :
  0 < m -> 2 ^ (k - 1) <= m < 2 ^ k -> Zdigits2 m = k.
Proof.
  destruct m as [|p|p]; try lia. intros _. apply digits2_pos_unique.
Qed.

Lemma shr_m_of_loc (m : Z) (l : location) : shr_m (shr_record_of_loc m l) = m.
Proof. destruct l as [|[]]; reflexivity. Qed.

(** After rounding, a significand of 53 bits is kept as it is and the
    significand [2^53] is renormalised to [2^52] with the next exponent. *)
Lemma renormalise (m' e' : Z) :
  2 ^ 52 <= m' <= 2 ^ 53 -> -1074 <= e' ->
  exists m'' e'',
    shr_fexp F64.prec F64.emax m' e' loc_Exact
      = (Build_shr_record (Zpos m'') false false, e'') /\
    Zpos (digits2_pos m'') = 53 /\
    e' <= e'' <= e' + 1 /\
    Zpos m'' * 2 ^ (e'' - e') = m'.
Proof.
  intros Hm He.
  assert (Hpos : 0 < m') by lia.
  destruct (Z.eq_dec m' (2 ^ 53)) as [->|Hne].
  - exists (2 ^ 52)%positive, (e' + 1). unfold shr_fexp.
    change (Zdigits2 (2 ^ 53)) with 54.
    replace (fexp F64.prec F64.emax (54 + e') - e') with 1
      by (unfold fexp, emin, F64.prec, F64.emax; lia).
    split; [reflexivity|]. split; [reflexivity|]. split; [lia|].
    replace (e' + 1 - e') with 1 by lia. reflexivity.
  - assert (Hd : Zdigits2 m' = 53).
    { apply Zdigits2_unique; [exact Hpos|]. change (53 - 1) with 52. lia. }
    destruct m' as [|p|p]; try lia.
    exists p, e'. unfold shr_fexp. rewrite Hd.
    replace (fexp F64.prec F64.emax (53 + e') - e') with 0
      by (unfold fexp, emin, F64.prec, F64.emax; lia).
    split; [reflexivity|]. split; [exact Hd|]. split; [lia|].
    rewrite Z.sub_diag. change (2 ^ 0) with 1. lia.
Qed.

(** The heart of the analysis: in the normal range, [binary_round_aux]
    returns a normal float whose significand is within half a unit in the
    last place of the located rational. *)
Lemma binary_round_aux_normal (sx : bool) (m e : Z) (l : location) (N D : Z) :
  located (shr_record_of_loc m l) N D ->
  53 <= Zdigits2 m ->
  -1074 <= e + Zdigits2 m - 53 < 971 ->
  exists m'' e'',
    binary_round_aux F64.prec F64.emax sx m e l = S754_finite sx m'' e'' /\
    Zpos (digits2_pos m'') = 53 /\
    e + (Zdigits2 m - 53) <= e'' <= e + (Zdigits2 m - 53) + 1 /\
    2 ^ 53 * Z.abs (Zpos m'' * 2 ^ (e'' - e) * D - N) <= N.
Proof.
  intros Hloc Hd He.
  pose proof Hloc as (HD & HN & Hm & _). rewrite shr_m_of_loc in Hm.
  assert (Hm0 : 0 < m).
  { pose proof (Z.div_pos N D HN HD).
    destruct (Z.eq_dec m 0) as [->|]; [simpl in Hd; lia | lia]. }
  pose proof (Zdigits2_bounds m Hm0) as Hb.
  set (d := Zdigits2 m) in *. set (n := d - 53).
  assert (Hn : 0 <= n) by (unfold n; lia).
  assert (Hp : 0 < 2 ^ n) by (apply Z.pow_pos_nonneg; lia).
  assert (Hlo : 2 ^ (d - 1) = 2 ^ n * 2 ^ 52).
  { rewrite <- Z.pow_add_r by lia. f_equal. unfold n. lia. }
  assert (Hhi : 2 ^ d = 2 ^ n * 2 ^ 53).
  { rewrite <- Z.pow_add_r by lia. f_equal. unfold n. lia. }
  unfold binary_round_aux, shr_fexp at 1.
  fold d. replace (fexp F64.prec F64.emax (d + e) - e) with n
    by (unfold fexp, emin, F64.prec, F64.emax, n; lia).
  destruct (shr_located _ e n N D Hloc Hn) as [H1 H2].
  destruct (shr (shr_record_of_loc m l) e n) as [mrs' e'].
  cbn [fst snd] in H1, H2. subst e'.
  pose proof (round_nearest_even_located mrs' N (D * 2 ^ n) H1) as [Hr1 Hr2].
  set (m' := round_nearest_even (shr_m mrs') (loc_of_shr_record mrs')) in *.
  assert (Hq : N / (D * 2 ^ n) = m / 2 ^ n) by (rewrite <- Z.div_div, Hm; lia).
  rewrite Hq in Hr1.
  assert (Hq1 : 2 ^ 52 <= m / 2 ^ n) by (apply Z.div_le_lower_bound; lia).
  assert (Hq2 : m / 2 ^ n < 2 ^ 53) by (apply Z.div_lt_upper_bound; lia).
  destruct (renormalise m' (e + n)) as (m'' & e'' & Es & Hdig & He'' & Hval);
    [lia | lia |].
  rewrite Es. cbn [shr_m].
  exists m'', e''. split.
  - replace (e'' <=? F64.emax - F64.prec) with true; [reflexivity|].
    symmetry. apply Z.leb_le. unfold F64.emax, F64.prec. lia.
  - split; [exact Hdig|]. split; [unfold n in He''; lia|].
    replace (e'' - e) with ((e'' - (e + n)) + n) by lia.
    rewrite Z.pow_add_r by lia.
    replace (Zpos m'' * (2 ^ (e'' - (e + n)) * 2 ^ n) * D - N)
      with (Zpos m'' * 2 ^ (e'' - (e + n)) * (D * 2 ^ n) - N) by ring.
    rewrite Hval.
    assert (HDm : D * m <= N) by (rewrite Hm; apply Z.mul_div_le; lia).
    assert (HDn : 2 ^ 52 * (D * 2 ^ n) <= N) by nia.
    replace (2 * m' * (D * 2 ^ n) - 2 * N)
      with (2 * (m' * (D * 2 ^ n) - N)) in Hr2 by ring.
    rewrite Z.abs_mul in Hr2. change (Z.abs 2) with 2 in Hr2.
    change (2 ^ 53) with (2 ^ 52 * 2). lia.
Qed.

(** ** From integer bounds to rational bounds *)

Local Open Scope Q_scope.

Lemma pow2_pos (e : Z) : 0 < F64.pow2 e.
Proof. unfold F64.pow2. apply Qpower_0_lt. reflexivity. Qed.

Lemma pow2_add (a b : Z) : F64.pow2 (a + b) == F64.pow2 a * F64.pow2 b.
Proof. unfold F64.pow2. apply Qpower_plus. discriminate. Qed.

Lemma pow2_inject (k : Z) : (0 <= k)%Z -> F64.pow2 k == inject_Z (2 ^ k).
Proof. intros Hk. unfold F64.pow2. rewrite Zpower_Qpower by exact Hk. reflexivity. Qed.

Lemma pow2_lt_inv (a b : Z) : F64.pow2 a < F64.pow2 b -> (a < b)%Z.
Proof. intros H. apply (Qpower_lt_compat_l_inv 2); [exact H | reflexivity]. Qed.

Lemma u_value : u = 1 # 9007199254740992.
Proof. reflexivity. Qed.

(** An integer bound of relative size [2^-53] carries over to the scaled
    rationals. *)
Lemma scaled_error (A N e e'' : Z) :
  (e <= e'')%Z -> (0 <= N)%Z ->
  (2 ^ 53 * Z.abs (A * 2 ^ (e'' - e) - N) <= N)%Z ->
  Qabs (inject_Z A * F64.pow2 e'' - inject_Z N * F64.pow2 e)
    <= u * (inject_Z N * F64.pow2 e).
Proof.
  intros He HN Hb.
  assert (Hp : F64.pow2 e'' == inject_Z (2 ^ (e'' - e)) * F64.pow2 e).
  { rewrite <- pow2_inject by lia. rewrite <- pow2_add. f_equiv. lia. }
  pose proof (pow2_pos e) as Hpe. set (p := F64.pow2 e) in *.
  set (K := (A * 2 ^ (e'' - e) - N)%Z) in *.
  assert (HK : inject_Z A * F64.pow2 e'' - inject_Z N * p == inject_Z K * p).
  { rewrite Hp. unfold K, Z.sub. rewrite inject_Z_plus, inject_Z_opp, inject_Z_mult. ring. }
  rewrite HK, Qabs_Qmult, (Qabs_pos p) by lra.
  assert (HQ : inject_Z (2 ^ 53) * Qabs (inject_Z K) <= inject_Z N).
  { change (Qabs (inject_Z K)) with (inject_Z (Z.abs K)).
    rewrite <- inject_Z_mult, <- Zle_Qle. exact Hb. }
  change (inject_Z (2 ^ 53)) with (9007199254740992 # 1) in HQ.
  rewrite u_value. set (k := Qabs (inject_Z K)) in *. set (n := inject_Z N) in *.
  assert (Hk : k <= (1 # 9007199254740992) * n) by lra.
  nra.
Qed.

Lemma value_finite (s : bool) (m : positive) (e : Z) :
  F64.value (S754_finite s m e)
  = (if s then - inject_Z (Zpos m) else inject_Z (Zpos m)) * F64.pow2 e.
Proof. destruct s; reflexivity. Qed.

Local Open Scope Z_scope.

(** ** The standard model of binary64 multiplication and division *)

Lemma normal_significand (m : positive) :
  Zpos (digits2_pos m) = 53 -> 2 ^ 52 <= Zpos m < 2 ^ 53.
Proof.
  intros H. pose proof (digits2_pos_bounds m) as Hb. rewrite H in Hb. exact Hb.
Qed.

Lemma Zdigits2_range (m lo hi : Z) :
  0 < lo -> 2 ^ (lo - 1) <= m < 2 ^ hi -> lo <= Zdigits2 m <= hi.
Proof.
  intros Hlo [H1 H2].
  assert (Hm : 0 < m).
  { assert (0 < 2 ^ (lo - 1)) by (apply Z.pow_pos_nonneg; lia). lia. }
  pose proof (Zdigits2_bounds m Hm) as [B1 B2]. set (d := Zdigits2 m) in *.
  split.
  - destruct (Z.le_gt_cases lo d) as [|Hc]; [assumption|].
    assert (2 ^ d <= 2 ^ (lo - 1)).
    { destruct (Z.le_gt_cases 0 d).
      - apply Z.pow_le_mono_r; lia.
      - rewrite (Z.pow_neg_r 2 d) by lia. apply Z.pow_nonneg. lia. }
    lia.
  - destruct (Z.le_gt_cases d hi) as [|Hc]; [assumption|].
    assert (0 <= hi).
    { destruct (Z.le_gt_cases 0 hi); [assumption|].
      rewrite (Z.pow_neg_r 2 hi) in H2 by lia. lia. }
    assert (2 ^ hi <= 2 ^ (d - 1)) by (apply Z.pow_le_mono_r; lia).
    lia.
Qed.

(** fl(x * y) = x * y * (1 + delta) with |delta| <= u, away from overflow
    and underflow. *)
Lemma mul_normal (sx sy : bool) (mx my : positive) (ex ey : Z) :
  Zpos (digits2_pos mx) = 53 -> Zpos (digits2_pos my) = 53 ->
  -1074 <= ex + ey + 52 -> ex + ey + 53 < 971 ->
  exists m e,
    F64.mul (S754_finite sx mx ex) (S754_finite sy my ey)
      = S754_finite (xorb sx sy) m e /\
    Zpos (digits2_pos m) = 53 /\
    ex + ey + 52 <= e <= ex + ey + 54 /\
    (Qabs (F64.value (S754_finite (xorb sx sy) m e)
           - F64.value (S754_finite sx mx ex) * F64.value (S754_finite sy my ey))
     <= u * Qabs (F64.value (S754_finite sx mx ex)
                  * F64.value (S754_finite sy my ey)))%Q.
Proof.
  intros Hx Hy Hlo Hhi.
  pose proof (normal_significand mx Hx) as Bx.
  pose proof (normal_significand my Hy) as By.
  set (P := Zpos (mx * my)).
  assert (HP : P = Zpos mx * Zpos my) by reflexivity.
  assert (Hd : 105 <= Zdigits2 P <= 106).
  { apply Zdigits2_range; [lia|]. change (105 - 1) with 104.
    change (2 ^ 104) with (2 ^ 52 * 2 ^ 52).
    change (2 ^ 106) with (2 ^ 53 * 2 ^ 53). nia. }
  destruct (binary_round_aux_normal (xorb sx sy) P (ex + ey) loc_Exact P 1)
    as (m & e & Hr & Hm & He & Hb).
  { apply located_exact. lia. }
  { lia. }
  { lia. }
  exists m, e. split; [exact Hr|]. split; [exact Hm|]. split; [lia|].
  rewrite Z.mul_1_r in Hb.
  pose proof (scaled_error (Zpos m) P (ex + ey) e ltac:(lia) ltac:(lia) Hb) as HQ.
  rewrite !value_finite.
  assert (HPQ : (inject_Z P * F64.pow2 (ex + ey)
                 == (inject_Z (Zpos mx) * F64.pow2 ex) * (inject_Z (Zpos my) * F64.pow2 ey))%Q).
  { rewrite HP, inject_Z_mult, pow2_add. ring. }
  rewrite HPQ in HQ. clear HPQ.
  assert (Hbx : (0 < inject_Z (Zpos mx) * F64.pow2 ex)%Q).
  { apply Qmult_lt_0_compat; [reflexivity | apply pow2_pos]. }
  assert (Hby : (0 < inject_Z (Zpos my) * F64.pow2 ey)%Q).
  { apply Qmult_lt_0_compat; [reflexivity | apply pow2_pos]. }
  set (b := (inject_Z (Zpos mx) * F64.pow2 ex)%Q) in *.
  set (c := (inject_Z (Zpos my) * F64.pow2 ey)%Q) in *.
  set (a := (inject_Z (Zpos m) * F64.pow2 e)%Q) in *.
  assert (Hbc : (0 < b * c)%Q) by (apply Qmult_lt_0_compat; assumption).
  apply Qabs_Qle_condition in HQ.
  assert (E1 : (- inject_Z (Zpos m) * F64.pow2 e == - a)%Q) by (unfold a; ring).
  assert (E2 : (- inject_Z (Zpos mx) * F64.pow2 ex == - b)%Q) by (unfold b; ring).
  assert (E3 : (- inject_Z (Zpos my) * F64.pow2 ey == - c)%Q) by (unfold c; ring).
  destruct sx, sy; cbn [xorb]; rewrite ?E1, ?E2, ?E3;
    fold a; fold b; fold c.
  - setoid_replace (- b * - c)%Q with (b * c)%Q by ring.
    rewrite (Qabs_pos (b * c)) by lra. apply Qabs_Qle_condition. lra.
  - setoid_replace (- b * c)%Q with (- (b * c))%Q by ring.
    rewrite Qabs_opp, (Qabs_pos (b * c)) by lra. apply Qabs_Qle_condition. lra.
  - setoid_replace (b * - c)%Q with (- (b * c))%Q by ring.
    rewrite Qabs_opp, (Qabs_pos (b * c)) by lra. apply Qabs_Qle_condition. lra.
  - rewrite (Qabs_pos (b * c)) by lra. apply Qabs_Qle_condition. lra.
Qed.

Lemma new_location_located (a b : Z) :
  0 <= a -> 0 < b ->
  located (shr_record_of_loc (a / b) (new_location b (a mod b))) a b.
Proof.
  intros Ha Hb. unfold located. rewrite shr_m_of_loc.
  pose proof (Z.mod_pos_bound a b Hb) as Hr. set (k := a mod b) in *.
  split; [exact Hb|]. split; [exact Ha|]. split; [reflexivity|].
  unfold new_location, new_location_even, new_location_odd.
  destruct (Z.even b) eqn:Ev; destruct (Z.eqb_spec k 0) as [Hk|Hk].
  - cbn [shr_record_of_loc shr_r shr_s]. split; lia.
  - destruct (Z.compare_spec (2 * k) b);
      cbn [shr_record_of_loc shr_r shr_s]; split; lia.
  - cbn [shr_record_of_loc shr_r shr_s]. split; lia.
  - assert (Hodd : Z.odd b = true) by (rewrite <- Z.negb_even, Ev; reflexivity).
    apply Z.odd_spec in Hodd. destruct Hodd as [c Hc].
    destruct (Z.compare_spec (2 * k + 1) b);
      cbn [shr_record_of_loc shr_r shr_s]; split; lia.
Qed.

(** fl(x / y) * y = x * (1 + delta) with |delta| <= u, away from overflow
    and underflow. *)
Lemma div_normal (sx sy : bool) (mx my : positive) (ex ey : Z) :
  Zpos (digits2_pos mx) = 53 -> Zpos (digits2_pos my) = 53 ->
  -1074 <= ex - ey - 53 -> ex - ey - 52 < 971 ->
  exists m e,
    F64.div (S754_finite sx mx ex) (S754_finite sy my ey)
      = S754_finite (xorb sx sy) m e /\
    Zpos (digits2_pos m) = 53 /\
    ex - ey - 53 <= e <= ex - ey - 51 /\
    (Qabs (F64.value (S754_finite (xorb sx sy) m e) * F64.value (S754_finite sy my ey)
           - F64.value (S754_finite sx mx ex))
     <= u * Qabs (F64.value (S754_finite sx mx ex)))%Q.
Proof.
  intros Hx Hy Hlo Hhi.
  pose proof (normal_significand mx Hx) as Bx.
  pose proof (normal_significand my Hy) as By.
  unfold F64.div, SFdiv, SFdiv_core_binary.
  cbn [Zdigits2]. rewrite Hx, Hy.
  replace (Z.min (fexp F64.prec F64.emax (53 + ex - (53 + ey))) (ex - ey))
    with (ex - ey - 53) by (unfold fexp, emin, F64.prec, F64.emax; lia).
  replace (ex - ey - (ex - ey - 53)) with 53 by lia.
  rewrite Z.shiftl_mul_pow2 by lia.
  set (N := Zpos mx * 2 ^ 53).
  assert (HN : 0 <= N) by (unfold N; lia).
  assert (Hdiv : Z.div_eucl N (Zpos my) = (N / Zpos my, N mod Zpos my)).
  { unfold Z.div, Z.modulo. destruct (Z.div_eucl N (Zpos my)); reflexivity. }
  rewrite Hdiv. clear Hdiv.
  pose proof (new_location_located N (Zpos my) HN ltac:(lia)) as Hloc.
  set (q := N / Zpos my) in *. set (l := new_location (Zpos my) (N mod Zpos my)) in *.
  assert (Hq1 : 2 ^ 52 <= q).
  { apply Z.div_le_lower_bound; [lia|]. unfold N. nia. }
  assert (Hq2 : q < 2 ^ 54).
  { apply Z.div_lt_upper_bound; [lia|]. unfold N.
    change (2 ^ 54) with (2 * 2 ^ 53). nia. }
  assert (Hd : 53 <= Zdigits2 q <= 54).
  { apply Zdigits2_range; [lia|]. change (53 - 1) with 52. lia. }
  destruct (binary_round_aux_normal (xorb sx sy) q (ex - ey - 53) l N (Zpos my))
    as (m & e & Hr & Hm & He & Hb); [exact Hloc | lia | lia |].
  exists m, e. split; [exact Hr|]. split; [exact Hm|]. split; [lia|].
  assert (Hb' : 2 ^ 53 * Z.abs (Zpos m * Zpos my * 2 ^ (e + ey - (ex - 53)) - N) <= N).
  { replace (e + ey - (ex - 53)) with (e - (ex - ey - 53)) by lia.
    replace (Zpos m * Zpos my * 2 ^ (e - (ex - ey - 53)))
      with (Zpos m * 2 ^ (e - (ex - ey - 53)) * Zpos my) by ring.
    exact Hb. }
  pose proof (scaled_error (Zpos m * Zpos my) N (ex - 53) (e + ey)
                ltac:(lia) HN Hb') as HQ.
  rewrite !value_finite.
  assert (E0 : (inject_Z N * F64.pow2 (ex - 53) == inject_Z (Zpos mx) * F64.pow2 ex)%Q).
  { unfold N. rewrite inject_Z_mult, <- (pow2_inject 53) by lia.
    replace ex with (53 + (ex - 53)) at 2 by lia. rewrite (pow2_add 53). ring. }
  assert (E4 : (inject_Z (Zpos m * Zpos my) * F64.pow2 (e + ey)
                == (inject_Z (Zpos m) * F64.pow2 e) * (inject_Z (Zpos my) * F64.pow2 ey))%Q).
  { rewrite inject_Z_mult, pow2_add. ring. }
  rewrite E0, E4 in HQ. clear E0 E4.
  assert (Hbx : (0 < inject_Z (Zpos mx) * F64.pow2 ex)%Q).
  { apply Qmult_lt_0_compat; [reflexivity | apply pow2_pos]. }
  set (b := (inject_Z (Zpos mx) * F64.pow2 ex)%Q) in *.
  set (c := (inject_Z (Zpos my) * F64.pow2 ey)%Q) in *.
  set (a := (inject_Z (Zpos m) * F64.pow2 e)%Q) in *.
  apply Qabs_Qle_condition in HQ.
  assert (E1 : (- inject_Z (Zpos m) * F64.pow2 e == - a)%Q) by (unfold a; ring).
  assert (E2 : (- inject_Z (Zpos mx) * F64.pow2 ex == - b)%Q) by (unfold b; ring).
  assert (E3 : (- inject_Z (Zpos my) * F64.pow2 ey == - c)%Q) by (unfold c; ring).
  destruct sx, sy; cbn [xorb]; rewrite ?E1, ?E2, ?E3;
    fold a; fold b; fold c.
  - setoid_replace (a * - c - - b)%Q with (- (a * c - b))%Q by ring.
    rewrite !Qabs_opp, (Qabs_pos b) by lra. apply Qabs_Qle_condition. lra.
  - setoid_replace (- a * c - - b)%Q with (- (a * c - b))%Q by ring.
    rewrite !Qabs_opp, (Qabs_pos b) by lra. apply Qabs_Qle_condition. lra.
  - setoid_replace (- a * - c - b)%Q with (a * c - b)%Q by ring.
    rewrite (Qabs_pos b) by lra. apply Qabs_Qle_condition. lra.
  - rewrite (Qabs_pos b) by lra. apply Qabs_Qle_condition. lra.
Qed.

(** ** The conversion constant *)

Lemma M_eq : M = S754_finite false 5070937775678727 (-48).
Proof. vm_compute. reflexivity. Qed.

Lemma M_normal : Zpos (digits2_pos 5070937775678727) = 53.
Proof. reflexivity. Qed.

(** [M] is the binary64 value nearest to the decimal 18.01559: it is within
    half a unit in the last place ([2^-49]) of it. *)
Lemma M_nearest :
  (Qabs (F64.value M - (1801559 # 100000)) <= F64.pow2 (-49))%Q.
Proof. vm_compute. discriminate. Qed.

Ltac qabs_cases :=
  repeat match goal with
         | |- context [Qabs ?t] =>
             let H := fresh "Habs" in
             pattern (Qabs t); apply Qabs_case; intros H
         end.

(** ** Round trips through the constant *)

(** [(x / M) * M] in the normal range. *)
Lemma div_mul_M (s : bool) (m : positive) (e : Z) :
  Zpos (digits2_pos m) = 53 -> -1060 <= e <= 960 ->
  exists m' e',
    F64.mul (F64.div (S754_finite s m e) M) M = S754_finite s m' e' /\
    Zpos (digits2_pos m') = 53 /\
    (Qabs (F64.value (S754_finite s m' e') - F64.value (S754_finite s m e))
     <= 3 * u * Qabs (F64.value (S754_finite s m e)))%Q.
Proof.
  intros Hm He. rewrite M_eq.
  destruct (div_normal s false m 5070937775678727 e (-48) Hm M_normal)
    as (my & ey & Hy & Hdy & Hey & HQy); [lia | lia |].
  rewrite xorb_false_r in Hy, HQy. rewrite Hy.
  destruct (mul_normal s false my 5070937775678727 ey (-48) Hdy M_normal)
    as (mz & ez & Hz & Hdz & Hez & HQz); [lia | lia |].
  rewrite xorb_false_r in Hz, HQz. rewrite Hz.
  exists mz, ez. split; [reflexivity|]. split; [exact Hdz|].
  set (X := F64.value (S754_finite s m e)) in *.
  set (W := (F64.value (S754_finite s my ey)
             * F64.value (S754_finite false 5070937775678727 (-48)))%Q) in *.
  set (Z := F64.value (S754_finite s mz ez)) in *.
  clearbody X W Z. rewrite u_value in *.
  revert HQy HQz. qabs_cases; intros HQy HQz; lra.
Qed.

(** [(x * M) / M] in the normal range. *)
Lemma mul_div_M (s : bool) (m : positive) (e : Z) :
  Zpos (digits2_pos m) = 53 -> -1060 <= e <= 960 ->
  exists m' e',
    F64.div (F64.mul (S754_finite s m e) M) M = S754_finite s m' e' /\
    Zpos (digits2_pos m') = 53 /\
    (Qabs (F64.value (S754_finite s m' e') - F64.value (S754_finite s m e))
     <= 3 * u * Qabs (F64.value (S754_finite s m e)))%Q.
Proof.
  intros Hm He. rewrite M_eq.
  destruct (mul_normal s false m 5070937775678727 e (-48) Hm M_normal)
    as (my & ey & Hy & Hdy & Hey & HQy); [lia | lia |].
  rewrite xorb_false_r in Hy, HQy. rewrite Hy.
  destruct (div_normal s false my 5070937775678727 ey (-48) Hdy M_normal)
    as (mz & ez & Hz & Hdz & Hez & HQz); [lia | lia |].
  rewrite xorb_false_r in Hz, HQz. rewrite Hz.
  exists mz, ez. split; [reflexivity|]. split; [exact Hdz|].
  assert (HM : (F64.value (S754_finite false 5070937775678727 (-48))
                == 5070937775678727 # 281474976710656)%Q) by reflexivity.
  rewrite HM in HQy, HQz.
  set (X := F64.value (S754_finite s m e)) in *.
  set (Y := F64.value (S754_finite s my ey)) in *.
  set (Z := F64.value (S754_finite s mz ez)) in *.
  clearbody X Y Z. rewrite u_value in *.
  revert HQy HQz. qabs_cases; intros HQy HQz; lra.
Qed.

(** ** Values in a range are normal floats *)

Lemma abs_value_finite (s : bool) (m : positive) (e : Z) :
  (Qabs (F64.value (S754_finite s m e)) == inject_Z (Zpos m) * F64.pow2 e)%Q.
Proof.
  rewrite value_finite. pose proof (pow2_pos e) as Hp.
  assert (Hm : (0 < inject_Z (Zpos m))%Q) by reflexivity.
  assert (Hpos : (0 < inject_Z (Zpos m) * F64.pow2 e)%Q)
    by (apply Qmult_lt_0_compat; assumption).
  destruct s.
  - setoid_replace (- inject_Z (Zpos m) * F64.pow2 e)%Q
      with (- (inject_Z (Zpos m) * F64.pow2 e))%Q by ring.
    rewrite Qabs_opp. apply Qabs_pos. lra.
  - apply Qabs_pos. lra.
Qed.

Lemma significand_bounds_Q (m : positive) (e lo hi : Z) :
  0 <= lo -> 2 ^ lo <= Zpos m < 2 ^ hi ->
  (F64.pow2 (lo + e) <= inject_Z (Zpos m) * F64.pow2 e
   /\ inject_Z (Zpos m) * F64.pow2 e < F64.pow2 (hi + e))%Q.
Proof.
  intros Hlo [H1 H2].
  assert (Hhi : 0 <= hi).
  { destruct (Z.le_gt_cases 0 hi); [assumption|].
    rewrite (Z.pow_neg_r 2 hi) in H2 by lia. lia. }
  pose proof (pow2_pos e) as Hp.
  rewrite !pow2_add, (pow2_inject lo), (pow2_inject hi) by assumption. split.
  - apply Qmult_le_r; [exact Hp|]. rewrite <- Zle_Qle. exact H1.
  - apply Qmult_lt_r; [exact Hp|]. rewrite <- Zlt_Qlt. exact H2.
Qed.

Lemma normal_of_range (x : float) (q : Q) (lo hi : Z) :
  F64.valid x = true -> F64.to_Q x = Some q -> -1022 <= lo ->
  (F64.pow2 lo <= Qabs q)%Q -> (Qabs q < F64.pow2 hi)%Q ->
  exists s m e,
    x = S754_finite s m e /\ Zpos (digits2_pos m) = 53 /\ lo - 52 <= e <= hi - 53.
Proof.
  intros Hv Hq Hlo H1 H2.
  destruct x as [s|s| |s m e]; simpl in Hq; try discriminate.
  - injection Hq as <-. change (Qabs 0) with 0%Q in H1.
    pose proof (pow2_pos lo). lra.
  - assert (Hq' : q = F64.value (S754_finite s m e)) by (injection Hq as <-; reflexivity).
    rewrite Hq', abs_value_finite in H1, H2. clear Hq Hq'.
    unfold F64.valid, valid_binary, bounded, canonical_mantissa in Hv.
    apply andb_true_iff in Hv. destruct Hv as [Hc Hb].
    apply Z.eqb_eq in Hc. unfold fexp, emin, F64.prec, F64.emax in Hc.
    pose proof (digits2_pos_bounds m) as Hd.
    set (d := Zpos (digits2_pos m)) in *.
    assert (Hd1 : 1 <= d) by (unfold d; lia).
    destruct (Z.eq_dec d 53) as [Hd53|Hne].
    + exists s, m, e. split; [reflexivity|]. split; [exact Hd53|].
      rewrite Hd53 in Hd. change (53 - 1) with 52 in Hd.
      destruct (significand_bounds_Q m e 52 53 ltac:(lia) Hd) as [B1 B2].
      split.
      * assert (Hlt : (F64.pow2 lo < F64.pow2 (53 + e))%Q) by lra.
        apply pow2_lt_inv in Hlt. lia.
      * assert (Hlt : (F64.pow2 (52 + e) < F64.pow2 hi)%Q) by lra.
        apply pow2_lt_inv in Hlt. lia.
    + exfalso. assert (He : e = -1074) by lia. assert (Hd52 : d <= 52) by lia.
      assert (Hm : 2 ^ 0 <= Zpos m < 2 ^ 52).
      { split; [simpl; lia|].
        assert (2 ^ d <= 2 ^ 52) by (apply Z.pow_le_mono_r; lia). lia. }
      destruct (significand_bounds_Q m e 0 52 ltac:(lia) Hm) as [_ B2].
      subst e. change (52 + -1074) with (-1022) in B2.
      assert (Hmono : (F64.pow2 (-1022) <= F64.pow2 lo)%Q).
      { unfold F64.pow2. apply Qpower_le_compat_l; [lia | discriminate]. }
      lra.
Qed.

(** ** The column program, row by row *)

Local Open Scope string_scope.

Lemma series_div_scalar_map {A : Type} (f : A -> float) (l : list A) (c : float) :
  series_div_scalar (map f l) c = map (fun r => F64.div (f r) c) l.
Proof. unfold series_div_scalar. apply map_map. Qed.

Lemma series_mul_scalar_map {A : Type} (f : A -> float) (l : list A) (c : float) :
  series_mul_scalar (map f l) c = map (fun r => F64.mul (f r) c) l.
Proof. unfold series_mul_scalar. apply map_map. Qed.

Lemma series_div_map {A : Type} (f g : A -> float) (l : list A) :
  series_div (map f l) (map g l) = map (fun r => F64.div (f r) (g r)) l.
Proof.
  unfold series_div. induction l as [|a l IH]; simpl; [reflexivity|].
  f_equal. exact IH.
Qed.

Lemma assign_map (df : DataFrame) (f g h : reading -> float) :
  assign df (map f df) (map g df) (map h df)
  = map (fun r => mk_derived r (f r) (g r) (h r)) df.
Proof.
  induction df as [|r df IH]; simpl; [reflexivity|]. f_equal. exact IH.
Qed.

Lemma gly_mmol_rows (df : DataFrame) (unit_glucose gki_mode : string) :
  gly_mmol df unit_glucose gki_mode
  = map (fun r => row_gly_mmol unit_glucose gki_mode (Glycemie r)) df.
Proof.
  unfold gly_mmol, row_gly_mmol.
  destruct (String.eqb gki_mode "Full mmol"), (String.eqb unit_glucose "mg/dL");
    rewrite ?series_mul_scalar_map, ?series_div_scalar_map;
    reflexivity.
Qed.

Lemma glycemie_affichee_rows (df : DataFrame) (unit_glucose : string) :
  glycemie_affichee df unit_glucose
  = map (fun r => if String.eqb unit_glucose "mmol/L"
                  then F64.div (Glycemie r) M else Glycemie r) df.
Proof.
  unfold glycemie_affichee. destruct (String.eqb unit_glucose "mmol/L").
  - apply series_div_scalar_map.
  - reflexivity.
Qed.

Lemma prepare_df_plot_rows (df : DataFrame) (unit_glucose unit_ketone gki_mode : string)
    (debug : bool) :
  returned (prepare_df_plot df unit_glucose unit_ketone gki_mode debug)
  = map (row_derived unit_glucose gki_mode) df.
Proof.
  unfold returned, prepare_df_plot. cbn [fst].
  rewrite gly_mmol_rows, glycemie_affichee_rows, series_div_map, assign_map.
  reflexivity.
Qed.

(** The three embedded self-tests pass, as the program reports at start-up. *)
Lemma self_tests_pass :
  test_glucose_conversion = true /\
  test_gki_calculation = true /\
  test_prepare_df_plot = true.
Proof. repeat split; vm_compute; reflexivity. Qed.

(** ** Claims about the structure of the returned frame *)

(** C2. In "Full mmol" mode the glucose component of the GKI is
    [glucose_raw / 18.01559] when [unit_glucose] is "mg/dL" and [glucose_raw]
    unchanged when it is "mmol/L"; the GKI column of the returned frame is
    that component over the ketone cell, row by row. *)
Theorem C2_full_mmol_numerator (df : DataFrame) (unit_ketone : string) (debug : bool) :
  gly_mmol df "mg/dL" "Full mmol" = map (fun r => toMmol (Glycemie r)) df /\
  gly_mmol df "mmol/L" "Full mmol" = map Glycemie df /\
  map GKI (returned (prepare_df_plot df "mg/dL" unit_ketone "Full mmol" debug))
    = map (fun r => F64.div (toMmol (Glycemie r)) (Cetonemie r)) df /\
  map GKI (returned (prepare_df_plot df "mmol/L" unit_ketone "Full mmol" debug))
    = map (fun r => F64.div (Glycemie r) (Cetonemie r)) df.
Proof.
  split; [apply gly_mmol_rows|].
  split; [rewrite gly_mmol_rows; reflexivity|].
  split; rewrite prepare_df_plot_rows, map_map; reflexivity.
Qed.

(** C6. The displayed glucose is [glucose_raw / 18.01559] when
    [unit_glucose] is "mmol/L" and [glucose_raw] unchanged for any other
    unit; the displayed ketone is [ketone_raw] unchanged whatever
    [unit_ketone] is. *)
Theorem C6_display_columns (df : DataFrame) (unit_glucose unit_ketone gki_mode : string)
    (debug : bool) :
  map Glycemie_affichee
      (returned (prepare_df_plot df "mmol/L" unit_ketone gki_mode debug))
    = map (fun r => F64.div (Glycemie r) M) df /\
  map Glycemie_affichee
      (returned (prepare_df_plot df unit_glucose unit_ketone gki_mode debug))
    = map (fun r => if String.eqb unit_glucose "mmol/L"
                    then F64.div (Glycemie r) M else Glycemie r) df /\
  map Cetonemie_affichee
      (returned (prepare_df_plot df unit_glucose unit_ketone gki_mode debug))
    = map Cetonemie df.
Proof.
  rewrite !prepare_df_plot_rows, !map_map.
  split; [reflexivity|]. split; reflexivity.
Qed.

(** C8. The returned frame has one row per input row, in the input order:
    same length, same source rows and hence the same timestamps in the same
    order. *)
Theorem C8_order_preserved (df : DataFrame) (unit_glucose unit_ketone gki_mode : string)
    (debug : bool) :
  List.length (returned (prepare_df_plot df unit_glucose unit_ketone gki_mode debug))
    = List.length df /\
  map source (returned (prepare_df_plot df unit_glucose unit_ketone gki_mode debug))
    = df /\
  map (fun d => Datetime (source d))
      (returned (prepare_df_plot df unit_glucose unit_ketone gki_mode debug))
    = map Datetime df.
Proof.
  rewrite prepare_df_plot_rows. split; [apply List.length_map|]. split.
  - rewrite map_map. apply map_id.
  - rewrite map_map. reflexivity.
Qed.

(** C9. Every [gki_mode] other than the exact string "Full mmol" takes the
    Standard path: the numerator is the two-step Standard computation, the
    GKI column of the returned frame is that numerator over the ketone
    cell, row by row, the whole result is the one obtained with the
    interface label "Standard (mg/dL/mmol)", and a frame of full length is
    returned (no error value exists on this path). *)
Theorem C9_other_modes_take_standard_path (df : DataFrame)
    (unit_glucose unit_ketone gki_mode : string) (debug : bool) :
  gki_mode <> "Full mmol" ->
  prepare_df_plot df unit_glucose unit_ketone gki_mode debug
    = prepare_df_plot df unit_glucose unit_ketone mode_standard debug /\
  gly_mmol df unit_glucose gki_mode
    = series_div_scalar
        (if String.eqb unit_glucose "mg/dL"
         then map Glycemie df
         else series_mul_scalar (map Glycemie df) M) M /\
  map GKI (returned (prepare_df_plot df unit_glucose unit_ketone gki_mode debug))
    = map (fun r =>
             F64.div
               (F64.div (if String.eqb unit_glucose "mg/dL"
                         then Glycemie r
                         else F64.mul (Glycemie r) M) M)
               (Cetonemie r)) df /\
  map Glycemie_affichee
      (returned (prepare_df_plot df unit_glucose unit_ketone gki_mode debug))
    = map (fun r => if String.eqb unit_glucose "mmol/L"
                    then F64.div (Glycemie r) M else Glycemie r) df /\
  List.length (returned (prepare_df_plot df unit_glucose unit_ketone gki_mode debug))
    = List.length df.
Proof.
  intros Hmode. apply String.eqb_neq in Hmode.
  assert (Hg : gly_mmol df unit_glucose gki_mode
               = gly_mmol df unit_glucose mode_standard).
  { unfold gly_mmol. rewrite Hmode. reflexivity. }
  split; [unfold prepare_df_plot; rewrite Hg; reflexivity|].
  split; [unfold gly_mmol; rewrite Hmode; reflexivity|].
  rewrite prepare_df_plot_rows, !map_map.
  split; [|split; [reflexivity | apply List.length_map]].
  unfold row_derived, row_gly_mmol. cbn [GKI]. rewrite Hmode. reflexivity.
Qed.

Lemma C9_witness :
  "turbo" <> "Full mmol" /\
  map GKI (returned (prepare_df_plot test_data "mmol/L" "mmol/L" "turbo" true))
    = [ F64.div (F64.div (F64.mul (F64.of_Z 90) M) M) (F64.of_decimal 15 10);
        F64.div (F64.div (F64.mul (F64.of_Z 108) M) M) (F64.of_decimal 20 10) ].
Proof.
  split; [discriminate|].
  destruct (C9_other_modes_take_standard_path
              test_data "mmol/L" "mmol/L" "turbo" true ltac:(discriminate))
    as (_ & _ & H & _).
  exact H.
Defined.

(** C10. [unit_ketone] has no influence on the result: for any two values
    of it, the returned frame and the printed output are the same. *)
Theorem C10_unit_ketone_ignored (df : DataFrame)
    (unit_glucose unit_ketone1 unit_ketone2 gki_mode : string) (debug : bool) :
  prepare_df_plot df unit_glucose unit_ketone1 gki_mode debug
    = prepare_df_plot df unit_glucose unit_ketone2 gki_mode debug.
Proof. reflexivity. Qed.

(** ** Claims about the arithmetic *)

Lemma value_M :
  (F64.value (S754_finite false 5070937775678727 (-48))
   == 5070937775678727 # 281474976710656)%Q.
Proof. reflexivity. Qed.

(** In the normal range the two Standard branches never meet: one is close
    to [x / M], the other close to [x]. *)
Lemma standard_branches_differ (s : bool) (m : positive) (e : Z) :
  Zpos (digits2_pos m) = 53 -> -1060 <= e <= 960 ->
  F64.div (S754_finite s m e) M <> F64.div (F64.mul (S754_finite s m e) M) M.
Proof.
  intros Hm He. rewrite M_eq.
  destruct (div_normal s false m 5070937775678727 e (-48) Hm M_normal)
    as (ma & ea & Ha & _ & _ & HQa); [lia | lia |].
  destruct (mul_normal s false m 5070937775678727 e (-48) Hm M_normal)
    as (mw & ew & Hw & Hdw & Hew & HQw); [lia | lia |].
  rewrite xorb_false_r in Ha, HQa, Hw, HQw. rewrite Ha, Hw.
  destruct (div_normal s false mw 5070937775678727 ew (-48) Hdw M_normal)
    as (mb & eb & Hb & _ & _ & HQb); [lia | lia |].
  rewrite xorb_false_r in Hb, HQb. rewrite Hb.
  intros Heq. injection Heq as -> ->.
  pose proof (abs_value_finite s m e) as HX.
  assert (HXpos : (0 < inject_Z (Zpos m) * F64.pow2 e)%Q).
  { apply Qmult_lt_0_compat; [reflexivity | apply pow2_pos]. }
  rewrite value_M in HQa, HQw, HQb.
  set (X := F64.value (S754_finite s m e)) in *.
  set (W := F64.value (S754_finite s mw ew)) in *.
  set (A := F64.value (S754_finite s mb eb)) in *.
  set (P := (inject_Z (Zpos m) * F64.pow2 e)%Q) in *.
  clearbody X W A P. rewrite u_value in *.
  revert HX HQa HQw HQb. qabs_cases; intros HX HQa HQw HQb; lra.
Qed.

(** C1 (as amended). In Standard mode, that is for every [gki_mode] other
    than "Full mmol", the glucose component is [glucose_raw / 18.01559] when
    [unit_glucose] is "mg/dL" and [(glucose_raw * 18.01559) / 18.01559] when
    it is "mmol/L".  For a binary64 [glucose_raw] of magnitude between
    [2^-1000] and [2^1000] the latter is finite and within the relative
    error [3 * 2^-53] of [glucose_raw], and it differs from the former. *)
Theorem C1_standard_numerator (df : DataFrame) (gki_mode : string) :
  gki_mode <> "Full mmol" ->
  gly_mmol df "mg/dL" gki_mode = map (fun r => F64.div (Glycemie r) M) df /\
  gly_mmol df "mmol/L" gki_mode
    = map (fun r => F64.div (F64.mul (Glycemie r) M) M) df /\
  forall (glucose_raw : float) (q : Q),
    F64.valid glucose_raw = true -> F64.to_Q glucose_raw = Some q ->
    (F64.pow2 (-1000) <= Qabs q)%Q -> (Qabs q < F64.pow2 1000)%Q ->
    (exists q',
        F64.to_Q (F64.div (F64.mul glucose_raw M) M) = Some q' /\
        (Qabs (q' - q) <= 3 * u * Qabs q)%Q) /\
    F64.div glucose_raw M <> F64.div (F64.mul glucose_raw M) M.
Proof.
  intros Hmode. apply String.eqb_neq in Hmode.
  split; [rewrite gly_mmol_rows; unfold row_gly_mmol; rewrite Hmode; reflexivity|].
  split; [rewrite gly_mmol_rows; unfold row_gly_mmol; rewrite Hmode; reflexivity|].
  intros g q Hv Hq Hlo Hhi.
  destruct (normal_of_range g q (-1000) 1000 Hv Hq ltac:(lia) Hlo Hhi)
    as (s & m & e & -> & Hm & He).
  assert (Hqv : q = F64.value (S754_finite s m e))
    by (simpl in Hq; injection Hq as <-; reflexivity).
  split.
  - destruct (mul_div_M s m e Hm ltac:(lia)) as (m' & e' & Heq & _ & HQ).
    rewrite Heq. exists (F64.value (S754_finite s m' e')).
    split; [reflexivity|]. rewrite Hqv. exact HQ.
  - apply standard_branches_differ; [exact Hm | lia].
Qed.

Lemma C1_witness :
  mode_standard <> "Full mmol" /\
  F64.div (F64.of_Z 120) M <> F64.div (F64.mul (F64.of_Z 120) M) M.
Proof.
  split; [discriminate|].
  destruct (C1_standard_numerator test_df mode_standard ltac:(discriminate))
    as (_ & _ & H).
  apply (H (F64.of_Z 120) (F64.value (F64.of_Z 120))).
  - reflexivity.
  - reflexivity.
  - vm_compute. discriminate.
  - vm_compute. reflexivity.
Defined.

(** C1, the claim as stated fails: for [glucose_raw = 0] the two Standard
    branches give the same component, and for [glucose_raw = 120] the
    "mmol/L" branch does not give back [glucose_raw]. *)
Lemma C1_counterexample :
  gly_mmol [reading_of (F64.of_Z 0) (F64.of_decimal 15 10)] "mg/dL" mode_standard
    = gly_mmol [reading_of (F64.of_Z 0) (F64.of_decimal 15 10)] "mmol/L" mode_standard
  /\ gly_mmol [reading_of (F64.of_Z 120) (F64.of_decimal 15 10)] "mmol/L" mode_standard
     <> [F64.of_Z 120].
Proof. split; [reflexivity | vm_compute; discriminate]. Qed.

(** C5. For every binary64 [x] between 20 and 600, the round trip
    [toMgdl (toMmol x)] is finite and within the relative tolerance [1e-6]
    of [x]. *)
Theorem C5_round_trip (x : float) (q : Q) :
  F64.valid x = true -> F64.to_Q x = Some q -> (20 <= q)%Q -> (q <= 600)%Q ->
  exists q',
    F64.to_Q (toMgdl (toMmol x)) = Some q' /\
    (Qabs (q' - q) <= (1 # 1000000) * Qabs q)%Q.
Proof.
  intros Hv Hq Hlo Hhi.
  assert (Habs : (Qabs q == q)%Q) by (apply Qabs_pos; lra).
  destruct (normal_of_range x q 4 10 Hv Hq ltac:(lia)) as (s & m & e & -> & Hm & He).
  { rewrite Habs. change (F64.pow2 4) with 16%Q. lra. }
  { rewrite Habs. change (F64.pow2 10) with 1024%Q. lra. }
  assert (Hqv : q = F64.value (S754_finite s m e))
    by (simpl in Hq; injection Hq as <-; reflexivity).
  destruct (div_mul_M s m e Hm ltac:(lia)) as (m' & e' & Heq & _ & HQ).
  unfold toMgdl, toMmol. rewrite Heq.
  exists (F64.value (S754_finite s m' e')). split; [reflexivity|].
  rewrite <- Hqv in HQ. rewrite Habs in *. rewrite u_value in HQ.
  set (z := F64.value (S754_finite s m' e')) in *. clearbody z.
  apply Qabs_Qle_condition in HQ. apply Qabs_Qle_condition. lra.
Qed.

Lemma C5_witness :
  exists q',
    F64.to_Q (toMgdl (toMmol (F64.of_Z 90))) = Some q' /\
    (Qabs (q' - F64.value (F64.of_Z 90))
     <= (1 # 1000000) * Qabs (F64.value (F64.of_Z 90)))%Q.
Proof.
  apply (C5_round_trip (F64.of_Z 90) (F64.value (F64.of_Z 90))).
  - reflexivity.
  - reflexivity.
  - vm_compute. discriminate.
  - vm_compute. discriminate.
Defined.

(** ** Claims about the GKI column *)

(** C3, the claim as stated fails: for glucose 90 and ketone 1.5 with
    "mg/dL" in Standard mode the GKI is more than 0.3 away from 2.9974. *)
Lemma C3_counterexample :
  map GKI (returned (prepare_df_plot test_df "mg/dL" "mmol/L" mode_standard false))
    = [F64.div (F64.div (F64.of_Z 90) M) (F64.of_decimal 15 10)] /\
  (3 # 10 < Qabs (F64.value (F64.div (F64.div (F64.of_Z 90) M) (F64.of_decimal 15 10))
                  - (29974 # 10000)))%Q.
Proof. split; vm_compute; reflexivity. Qed.

(** C3 (as amended). For the single reading glucose 90 (mg/dL) and ketone
    1.5, with "mg/dL" and Standard mode, the GKI is the binary64 value of
    [(90 / 18.01559) / 1.5], a finite number within [1e-4] of 3.3304;
    whatever the date, the ketone unit and the debug flag are. *)
Theorem C3_standard_gki_value (d h : string) (ts : datetime) (unit_ketone : string)
    (debug : bool) :
  map GKI (returned (prepare_df_plot
                       [mk_reading d h ts (F64.of_Z 90) (F64.of_decimal 15 10)]
                       "mg/dL" unit_ketone mode_standard debug))
    = [F64.div (F64.div (F64.of_Z 90) M) (F64.of_decimal 15 10)] /\
  F64.is_finite (F64.div (F64.div (F64.of_Z 90) M) (F64.of_decimal 15 10)) = true /\
  (Qabs (F64.value (F64.div (F64.div (F64.of_Z 90) M) (F64.of_decimal 15 10))
         - (33304 # 10000)) <= 1 # 10000)%Q.
Proof.
  split; [rewrite prepare_df_plot_rows; reflexivity|].
  split; [vm_compute; reflexivity | vm_compute; discriminate].
Qed.

(** C4. For the two readings of the self-test, with "mg/dL" and Standard
    mode, the GKI column is [(90 / 18.01559) / 1.5] then
    [(108 / 18.01559) / 2.0], in the input order of the timestamps; the two
    values are within [1e-3] of 3.330 and 2.998. *)
Theorem C4_end_to_end (unit_ketone : string) (debug : bool) :
  map GKI (returned (prepare_df_plot test_data "mg/dL" unit_ketone mode_standard debug))
    = expected_gki /\
  map (fun d => Datetime (source d))
      (returned (prepare_df_plot test_data "mg/dL" unit_ketone mode_standard debug))
    = [mk_datetime 1 1 2024 8 0; mk_datetime 2 1 2024 8 0] /\
  map F64.is_finite expected_gki = [true; true] /\
  (Qabs (F64.value (F64.div (F64.div (F64.of_Z 90) M) (F64.of_decimal 15 10))
         - (3330 # 1000)) <= 1 # 1000)%Q /\
  (Qabs (F64.value (F64.div (F64.div (F64.of_Z 108) M) (F64.of_decimal 20 10))
         - (2998 # 1000)) <= 1 # 1000)%Q.
Proof.
  split; [rewrite prepare_df_plot_rows; reflexivity|].
  split; [rewrite prepare_df_plot_rows; reflexivity|].
  split; [vm_compute; reflexivity|].
  split; vm_compute; discriminate.
Qed.

(** [(x * M) / M] in the normal range, with the exponent of the result. *)
Lemma mul_div_M_exponent (s : bool) (m : positive) (e : Z) :
  Zpos (digits2_pos m) = 53 -> -1060 <= e <= 960 ->
  exists m' e',
    F64.div (F64.mul (S754_finite s m e) M) M = S754_finite s m' e' /\
    Zpos (digits2_pos m') = 53 /\
    e - 1 <= e' <= e + 3 /\
    (Qabs (F64.value (S754_finite s m' e') - F64.value (S754_finite s m e))
     <= 3 * u * Qabs (F64.value (S754_finite s m e)))%Q.
Proof.
  intros Hm He.
  destruct (mul_div_M s m e Hm He) as (m' & e' & Heq & Hd & HQ).
  exists m', e'. split; [exact Heq|]. split; [exact Hd|]. split; [|exact HQ].
  rewrite M_eq in Heq.
  destruct (mul_normal s false m 5070937775678727 e (-48) Hm M_normal)
    as (my & ey & Hy & Hdy & Hey & _); [lia | lia |].
  rewrite xorb_false_r in Hy. rewrite Hy in Heq.
  destruct (div_normal s false my 5070937775678727 ey (-48) Hdy M_normal)
    as (mz & ez & Hz & _ & Hez & _); [lia | lia |].
  rewrite Hz in Heq. injection Heq as _ _ <-. lia.
Qed.

(** The glucose component of a normal glucose cell is a normal float of the
    same sign; it is the cell over [M] up to one rounding for "mg/dL", and
    the cell itself up to two roundings for any other unit. *)
Lemma row_gly_mmol_normal (unit_glucose gki_mode : string)
    (s : bool) (m : positive) (e : Z) :
  Zpos (digits2_pos m) = 53 -> -1060 <= e <= 960 ->
  exists m' e',
    row_gly_mmol unit_glucose gki_mode (S754_finite s m e) = S754_finite s m' e' /\
    Zpos (digits2_pos m') = 53 /\
    e - 5 <= e' <= e + 3 /\
    if String.eqb unit_glucose "mg/dL"
    then (Qabs (F64.value (S754_finite s m' e') * F64.value M
                - F64.value (S754_finite s m e))
          <= u * Qabs (F64.value (S754_finite s m e)))%Q
    else (Qabs (F64.value (S754_finite s m' e') - F64.value (S754_finite s m e))
          <= 3 * u * Qabs (F64.value (S754_finite s m e)))%Q.
Proof.
  intros Hm He. unfold row_gly_mmol.
  assert (Hdiv : exists m' e',
             F64.div (S754_finite s m e) M = S754_finite s m' e' /\
             Zpos (digits2_pos m') = 53 /\ e - 5 <= e' <= e + 3 /\
             (Qabs (F64.value (S754_finite s m' e') * F64.value M
                    - F64.value (S754_finite s m e))
              <= u * Qabs (F64.value (S754_finite s m e)))%Q).
  { rewrite M_eq.
    destruct (div_normal s false m 5070937775678727 e (-48) Hm M_normal)
      as (m' & e' & Hy & Hd & He' & HQ); [lia | lia |].
    rewrite xorb_false_r in Hy, HQ.
    exists m', e'. split; [exact Hy|]. split; [exact Hd|]. split; [lia | exact HQ]. }
  destruct (String.eqb unit_glucose "mg/dL").
  - destruct (String.eqb gki_mode "Full mmol"); exact Hdiv.
  - destruct (String.eqb gki_mode "Full mmol").
    + exists m, e. split; [reflexivity|]. split; [exact Hm|]. split; [lia|].
      setoid_replace (F64.value (S754_finite s m e) - F64.value (S754_finite s m e))%Q
        with 0%Q by ring.
      change (Qabs 0) with 0%Q.
      pose proof (Qabs_nonneg (F64.value (S754_finite s m e))) as Hn.
      rewrite u_value. lra.
    + destruct (mul_div_M_exponent s m e Hm He) as (m' & e' & Heq & Hd & He' & HQ).
      exists m', e'. split; [exact Heq|]. split; [exact Hd|]. split; [lia | exact HQ].
Qed.

(** The quotient of a normal glucose component by a normal ketone cell. *)
Lemma gki_row_normal (unit_glucose gki_mode : string) (g k : float) (qg qk : Q) :
  F64.valid g = true -> F64.to_Q g = Some qg ->
  (F64.pow2 (-400) <= Qabs qg)%Q -> (Qabs qg < F64.pow2 400)%Q ->
  F64.valid k = true -> F64.to_Q k = Some qk ->
  (F64.pow2 (-400) <= Qabs qk)%Q -> (Qabs qk < F64.pow2 400)%Q ->
  exists n z : float,
    row_gly_mmol unit_glucose gki_mode g = n /\
    F64.div n k = z /\ F64.is_finite z = true /\
    (Qabs (F64.value z * qk - F64.value n) <= u * Qabs (F64.value n))%Q /\
    if String.eqb unit_glucose "mg/dL"
    then (Qabs (F64.value n * F64.value M - qg) <= u * Qabs qg)%Q
    else (Qabs (F64.value n - qg) <= 3 * u * Qabs qg)%Q.
Proof.
  intros Hvg Hqg Hg1 Hg2 Hvk Hqk Hk1 Hk2.
  destruct (normal_of_range g qg (-400) 400 Hvg Hqg ltac:(lia) Hg1 Hg2)
    as (s & m & e & -> & Hm & He).
  destruct (normal_of_range k qk (-400) 400 Hvk Hqk ltac:(lia) Hk1 Hk2)
    as (sk & mk & ek & -> & Hmk & Hek).
  assert (Eg : qg = F64.value (S754_finite s m e))
    by (simpl in Hqg; injection Hqg as <-; reflexivity).
  assert (Ek : qk = F64.value (S754_finite sk mk ek))
    by (simpl in Hqk; injection Hqk as <-; reflexivity).
  destruct (row_gly_mmol_normal unit_glucose gki_mode s m e Hm ltac:(lia))
    as (m' & e' & Hn & Hd' & He' & HQn).
  destruct (div_normal s sk m' mk e' ek Hd' Hmk)
    as (mz & ez & Hz & _ & _ & HQz); [lia | lia |].
  exists (S754_finite s m' e'), (S754_finite (xorb s sk) mz ez).
  split; [exact Hn|]. split; [exact Hz|]. split; [reflexivity|].
  rewrite Eg, Ek. split; [exact HQz | exact HQn].
Qed.

(** Dividing by a zero of either sign never gives a finite value. *)
Lemma div_by_zero_not_finite (x k : float) :
  F64.is_zero k = true -> F64.is_finite (F64.div x k) = false.
Proof.
  destruct k as [sk|sk| |sk mk ek]; try discriminate. intros _.
  destruct x as [sx|sx| |sx mx ex]; reflexivity.
Qed.

(** C7, the claim as stated fails: with ketone -1.5 (which is [<= 0]) and
    glucose 90 the GKI is a finite number. *)
Lemma C7_counterexample :
  F64.ltb (F64.of_decimal (-15) 10) (F64.of_Z 0) = true /\
  map (fun d => F64.is_finite (GKI d))
      (returned (prepare_df_plot
                   [reading_of (F64.of_Z 90) (F64.of_decimal (-15) 10)]
                   "mg/dL" "mmol/L" mode_standard false))
  = [true].
Proof. split; vm_compute; reflexivity. Qed.

(** C7 (as amended). No row is dropped and no error value exists: every
    input row has its output row at the same position, whose GKI is the
    unguarded quotient of the glucose component by [ketone_raw], returned
    as it is.  When [ketone_raw] is zero (of either sign) that GKI is not
    finite (an infinity or NaN).  When [ketone_raw] is negative it need not
    be: for glucose and ketone cells of magnitude between [2^-400] and
    [2^400] it is a finite number, the quotient rounded once. *)
Theorem C7_zero_ketone_propagates (df : DataFrame)
    (unit_glucose unit_ketone gki_mode : string) (debug : bool) (i : nat) (r : reading) :
  nth_error df i = Some r ->
  List.length (returned (prepare_df_plot df unit_glucose unit_ketone gki_mode debug))
    = List.length df /\
  exists (d : derived) (n : float),
    nth_error (returned (prepare_df_plot df unit_glucose unit_ketone gki_mode debug)) i
      = Some d /\
    nth_error (gly_mmol df unit_glucose gki_mode) i = Some n /\
    source d = r /\
    GKI d = F64.div n (Cetonemie r) /\
    (F64.is_zero (Cetonemie r) = true -> F64.is_finite (GKI d) = false) /\
    (forall qg qk : Q,
        F64.valid (Glycemie r) = true -> F64.to_Q (Glycemie r) = Some qg ->
        (F64.pow2 (-400) <= Qabs qg)%Q -> (Qabs qg < F64.pow2 400)%Q ->
        F64.valid (Cetonemie r) = true -> F64.to_Q (Cetonemie r) = Some qk ->
        (F64.pow2 (-400) <= Qabs qk)%Q -> (Qabs qk < F64.pow2 400)%Q ->
        (qk < 0)%Q ->
        F64.is_finite (GKI d) = true /\
        (Qabs (F64.value (GKI d) * qk - F64.value n) <= u * Qabs (F64.value n))%Q).
Proof.
  intros Hr. rewrite prepare_df_plot_rows, gly_mmol_rows.
  split; [apply List.length_map|].
  exists (row_derived unit_glucose gki_mode r),
         (row_gly_mmol unit_glucose gki_mode (Glycemie r)).
  rewrite !nth_error_map, Hr. cbn [option_map row_derived source GKI].
  repeat (split; [reflexivity|]).
  split; [apply div_by_zero_not_finite|].
  intros qg qk Hvg Hqg Hg1 Hg2 Hvk Hqk Hk1 Hk2 _.
  destruct (gki_row_normal unit_glucose gki_mode _ _ qg qk
              Hvg Hqg Hg1 Hg2 Hvk Hqk Hk1 Hk2)
    as (n & z & <- & <- & Hfin & HQz & _).
  split; [exact Hfin | exact HQz].
Qed.

Lemma C7_witness :
  (exists d,
      nth_error (returned (prepare_df_plot
                             [reading_of (F64.of_Z 90) (F64.of_Z 0)]
                             "mg/dL" "mmol/L" mode_standard false)) 0
        = Some d /\
      F64.is_finite (GKI d) = false) /\
  (exists d,
      nth_error (returned (prepare_df_plot
                             [reading_of (F64.of_Z 90) (F64.of_decimal (-15) 10)]
                             "mg/dL" "mmol/L" mode_standard false)) 0
        = Some d /\
      F64.is_finite (GKI d) = true).
Proof.
  split.
  - destruct (C7_zero_ketone_propagates
                [reading_of (F64.of_Z 90) (F64.of_Z 0)]
                "mg/dL" "mmol/L" mode_standard false 0
                (reading_of (F64.of_Z 90) (F64.of_Z 0)) eq_refl)
      as (_ & d & n & Hd & _ & _ & _ & Hz & _).
    exists d. split; [exact Hd | apply Hz; reflexivity].
  - destruct (C7_zero_ketone_propagates
                [reading_of (F64.of_Z 90) (F64.of_decimal (-15) 10)]
                "mg/dL" "mmol/L" mode_standard false 0
                (reading_of (F64.of_Z 90) (F64.of_decimal (-15) 10)) eq_refl)
      as (_ & d & n & Hd & _ & _ & _ & _ & Hneg).
    exists d. split; [exact Hd|].
    apply (Hneg (F64.value (F64.of_Z 90)) (F64.value (F64.of_decimal (-15) 10))).
    + reflexivity.
    + reflexivity.
    + vm_compute. discriminate.
    + vm_compute. reflexivity.
    + reflexivity.
    + reflexivity.
    + vm_compute. discriminate.
    + vm_compute. reflexivity.
    + vm_compute. reflexivity.
Defined.

(** * Further properties of the program *)

(** ** Configuration strings of [prepare_df_plot] *)

(** With [unit_glucose = "mg/dL"] the mode is irrelevant: the Standard path
    and the "Full mmol" path both divide the stored glucose by [M] once, so
    any two modes give the same frame and the same printed output. *)
Theorem mg_dl_mode_irrelevant (df : DataFrame) (unit_ketone mode1 mode2 : string)
    (debug : bool) :
  prepare_df_plot df "mg/dL" unit_ketone mode1 debug
  = prepare_df_plot df "mg/dL" unit_ketone mode2 debug.
Proof.
  assert (H : forall mode, gly_mmol df "mg/dL" mode
                           = series_div_scalar (map Glycemie df) M).
  { intros mode. unfold gly_mmol.
    destruct (String.eqb mode "Full mmol"); reflexivity. }
  unfold prepare_df_plot. rewrite (H mode1), (H mode2). reflexivity.
Qed.

(** A unit string that is neither "mg/dL" nor "mmol/L" is accepted
    silently and treated inconsistently: the displayed glucose is the stored
    value, as for "mg/dL", while the GKI is computed as for "mmol/L". *)
Theorem unknown_unit_is_split (df : DataFrame)
    (unit_glucose unit_ketone gki_mode : string) (debug : bool) :
  unit_glucose <> "mg/dL" -> unit_glucose <> "mmol/L" ->
  map Glycemie_affichee
      (returned (prepare_df_plot df unit_glucose unit_ketone gki_mode debug))
    = map Glycemie_affichee
        (returned (prepare_df_plot df "mg/dL" unit_ketone gki_mode debug)) /\
  map GKI (returned (prepare_df_plot df unit_glucose unit_ketone gki_mode debug))
    = map GKI (returned (prepare_df_plot df "mmol/L" unit_ketone gki_mode debug)).
Proof.
  intros H1 H2. apply String.eqb_neq in H1, H2.
  rewrite !prepare_df_plot_rows, !map_map.
  unfold row_derived, row_gly_mmol. cbn [Glycemie_affichee GKI].
  rewrite H1, H2. split; reflexivity.
Qed.

Lemma unknown_unit_is_split_witness :
  map Glycemie_affichee
      (returned (prepare_df_plot test_data "mg/dl" "mmol/L" mode_full_mmol false))
    = map Glycemie_affichee
        (returned (prepare_df_plot test_data "mg/dL" "mmol/L" mode_full_mmol false)) /\
  map GKI (returned (prepare_df_plot test_data "mg/dl" "mmol/L" mode_full_mmol false))
    = map GKI (returned (prepare_df_plot test_data "mmol/L" "mmol/L" mode_full_mmol false)).
Proof.
  apply (unknown_unit_is_split test_data "mg/dl" "mmol/L" mode_full_mmol false);
    discriminate.
Defined.

(** ** Special cells *)

Lemma row_gly_mmol_nan (unit_glucose gki_mode : string) :
  row_gly_mmol unit_glucose gki_mode S754_nan = S754_nan.
Proof.
  unfold row_gly_mmol.
  destruct (String.eqb gki_mode "Full mmol"), (String.eqb unit_glucose "mg/dL");
    reflexivity.
Qed.

Lemma div_nan_r (x : float) : F64.div x S754_nan = S754_nan.
Proof. destruct x; reflexivity. Qed.

(** A missing cell (NaN, as [read_csv] gives for an empty field) is never
    dropped or replaced: a NaN glucose or a NaN ketone gives a NaN GKI at
    the same row, in every unit and mode, and a NaN glucose is displayed as
    NaN. *)
Theorem nan_cell_propagates (df : DataFrame)
    (unit_glucose unit_ketone gki_mode : string) (debug : bool) (i : nat) (r : reading) :
  nth_error df i = Some r ->
  exists d,
    nth_error (returned (prepare_df_plot df unit_glucose unit_ketone gki_mode debug)) i
      = Some d /\
    source d = r /\
    (is_nan (Glycemie r) || is_nan (Cetonemie r) = true -> GKI d = S754_nan) /\
    (is_nan (Glycemie r) = true -> Glycemie_affichee d = S754_nan).
Proof.
  intros Hr. rewrite prepare_df_plot_rows, nth_error_map, Hr.
  exists (row_derived unit_glucose gki_mode r).
  split; [reflexivity|]. split; [reflexivity|].
  unfold row_derived. cbn [GKI Glycemie_affichee].
  destruct r as [dt h ts g k]. cbn [Glycemie Cetonemie]. split.
  - intros H. apply orb_true_iff in H. destruct H as [H|H].
    + destruct g; try discriminate. rewrite row_gly_mmol_nan. reflexivity.
    + destruct k; try discriminate. apply div_nan_r.
  - intros H. destruct g; try discriminate.
    destruct (String.eqb unit_glucose "mmol/L"); reflexivity.
Qed.

Lemma nan_cell_propagates_witness :
  exists d,
    nth_error (returned (prepare_df_plot
                           [reading_of S754_nan (F64.of_decimal 15 10)]
                           "mmol/L" "mmol/L" mode_standard false)) 0
      = Some d /\
    GKI d = S754_nan /\ Glycemie_affichee d = S754_nan.
Proof.
  destruct (nan_cell_propagates
              [reading_of S754_nan (F64.of_decimal 15 10)]
              "mmol/L" "mmol/L" mode_standard false 0
              (reading_of S754_nan (F64.of_decimal 15 10)) eq_refl)
    as (d & Hd & _ & Hg & Ha).
  exists d. split; [exact Hd|]. split; [apply Hg | apply Ha]; reflexivity.
Defined.

Lemma row_gly_mmol_zero (unit_glucose gki_mode : string) (s : bool) :
  row_gly_mmol unit_glucose gki_mode (S754_zero s) = S754_zero s.
Proof.
  unfold row_gly_mmol. rewrite M_eq.
  destruct (String.eqb gki_mode "Full mmol"), (String.eqb unit_glucose "mg/dL"), s;
    reflexivity.
Qed.

(** A glucose cell equal to zero gives, in every unit and mode, a GKI that
    is NaN when the ketone cell is zero or NaN, and a zero whose sign is the
    product of the two signs otherwise. *)
Theorem zero_glucose_gki (df : DataFrame)
    (unit_glucose unit_ketone gki_mode : string) (debug : bool) (i : nat) (r : reading) :
  nth_error df i = Some r -> F64.is_zero (Glycemie r) = true ->
  exists d,
    nth_error (returned (prepare_df_plot df unit_glucose unit_ketone gki_mode debug)) i
      = Some d /\
    GKI d = if F64.is_zero (Cetonemie r) || is_nan (Cetonemie r)
            then S754_nan
            else S754_zero (xorb (sign_bit (Glycemie r)) (sign_bit (Cetonemie r))).
Proof.
  intros Hr Hz. rewrite prepare_df_plot_rows, nth_error_map, Hr.
  exists (row_derived unit_glucose gki_mode r). split; [reflexivity|].
  unfold row_derived. cbn [GKI]. destruct r as [dt h ts g k].
  cbn [Glycemie Cetonemie] in *. destruct g as [sg|sg| |sg mg eg]; try discriminate.
  rewrite row_gly_mmol_zero. destruct k; reflexivity.
Qed.

Lemma zero_glucose_gki_witness :
  exists d,
    nth_error (returned (prepare_df_plot
                           [reading_of (F64.of_Z 0) (F64.of_decimal (-15) 10)]
                           "mg/dL" "mmol/L" mode_standard false)) 0
      = Some d /\
    GKI d = S754_zero true.
Proof.
  apply (zero_glucose_gki
           [reading_of (F64.of_Z 0) (F64.of_decimal (-15) 10)]
           "mg/dL" "mmol/L" mode_standard false 0
           (reading_of (F64.of_Z 0) (F64.of_decimal (-15) 10)) eq_refl eq_refl).
Defined.

(** ** The GKI of ordinary cells *)

(** A zero ketone cell under an ordinary glucose cell (magnitude between
    [2^-1000] and [2^1000]) gives an infinite GKI in every unit and mode,
    with the sign of glucose times the sign of the zero: [-0.0] under a
    positive glucose gives minus infinity. *)
Theorem zero_ketone_gives_signed_infinity (df : DataFrame)
    (unit_glucose unit_ketone gki_mode : string) (debug : bool)
    (i : nat) (r : reading) (q : Q) :
  nth_error df i = Some r ->
  F64.valid (Glycemie r) = true -> F64.to_Q (Glycemie r) = Some q ->
  (F64.pow2 (-1000) <= Qabs q)%Q -> (Qabs q < F64.pow2 1000)%Q ->
  F64.is_zero (Cetonemie r) = true ->
  exists d,
    nth_error (returned (prepare_df_plot df unit_glucose unit_ketone gki_mode debug)) i
      = Some d /\
    GKI d = S754_infinity (xorb (sign_bit (Glycemie r)) (sign_bit (Cetonemie r))).
Proof.
  intros Hr Hv Hq Hlo Hhi Hz. rewrite prepare_df_plot_rows, nth_error_map, Hr.
  exists (row_derived unit_glucose gki_mode r). split; [reflexivity|].
  unfold row_derived. cbn [GKI]. destruct r as [dt h ts g k].
  cbn [Glycemie Cetonemie] in *.
  destruct (normal_of_range g q (-1000) 1000 Hv Hq ltac:(lia) Hlo Hhi)
    as (s & m & e & -> & Hm & He).
  destruct (row_gly_mmol_normal unit_glucose gki_mode s m e Hm ltac:(lia))
    as (m' & e' & Hn & _).
  rewrite Hn. destruct k as [sk|sk| |sk mk ek]; try discriminate. reflexivity.
Qed.

Lemma zero_ketone_gives_signed_infinity_witness :
  exists d,
    nth_error (returned (prepare_df_plot
                           [reading_of (F64.of_Z 90) (S754_zero true)]
                           "mmol/L" "mmol/L" mode_standard false)) 0
      = Some d /\
    GKI d = S754_infinity true.
Proof.
  apply (zero_ketone_gives_signed_infinity
           [reading_of (F64.of_Z 90) (S754_zero true)]
           "mmol/L" "mmol/L" mode_standard false 0
           (reading_of (F64.of_Z 90) (S754_zero true))
           (F64.value (F64.of_Z 90)) eq_refl eq_refl eq_refl).
  - vm_compute. discriminate.
  - vm_compute. reflexivity.
  - reflexivity.
Defined.

(** With [unit_glucose = "mg/dL"] the GKI is the glucose-ketone index of
    the stored values: for glucose and ketone cells of magnitude between
    [2^-400] and [2^400] it is finite and
    [GKI * ketone * 18.01559] is within the relative error [3 * 2^-53] of
    [glucose], in either mode. *)
Theorem gki_mg_dl_accurate (df : DataFrame) (unit_ketone gki_mode : string)
    (debug : bool) (i : nat) (r : reading) (qg qk : Q) :
  nth_error df i = Some r ->
  F64.valid (Glycemie r) = true -> F64.to_Q (Glycemie r) = Some qg ->
  (F64.pow2 (-400) <= Qabs qg)%Q -> (Qabs qg < F64.pow2 400)%Q ->
  F64.valid (Cetonemie r) = true -> F64.to_Q (Cetonemie r) = Some qk ->
  (F64.pow2 (-400) <= Qabs qk)%Q -> (Qabs qk < F64.pow2 400)%Q ->
  exists d,
    nth_error (returned (prepare_df_plot df "mg/dL" unit_ketone gki_mode debug)) i
      = Some d /\
    F64.is_finite (GKI d) = true /\
    (Qabs (F64.value (GKI d) * qk * (1801559 # 100000) - qg)
     <= 3 * u * Qabs qg)%Q.
Proof.
  intros Hr Hvg Hqg Hg1 Hg2 Hvk Hqk Hk1 Hk2.
  rewrite prepare_df_plot_rows, nth_error_map, Hr.
  exists (row_derived "mg/dL" gki_mode r). split; [reflexivity|].
  unfold row_derived. cbn [GKI].
  destruct (gki_row_normal "mg/dL" gki_mode _ _ qg qk Hvg Hqg Hg1 Hg2 Hvk Hqk Hk1 Hk2)
    as (n & z & -> & -> & Hfin & HQz & HQn).
  split; [exact Hfin|].
  cbn [String.eqb Ascii.eqb Bool.eqb] in HQn.
  rewrite M_eq, value_M in HQn. rewrite u_value in *.
  set (T := (F64.value z * qk)%Q) in *. set (N := F64.value n) in *.
  clearbody T N. revert HQz HQn. qabs_cases; intros HQz HQn; lra.
Qed.

Lemma gki_mg_dl_accurate_witness :
  exists d,
    nth_error (returned (prepare_df_plot test_df "mg/dL" "mmol/L" mode_standard false)) 0
      = Some d /\
    F64.is_finite (GKI d) = true /\
    (Qabs (F64.value (GKI d) * F64.value (F64.of_decimal 15 10) * (1801559 # 100000)
           - F64.value (F64.of_Z 90))
     <= 3 * u * Qabs (F64.value (F64.of_Z 90)))%Q.
Proof.
  apply (gki_mg_dl_accurate test_df "mmol/L" mode_standard false 0
           (mk_reading "01/01/2024" "12:00" (mk_datetime 1 1 2024 12 0)
              (F64.of_Z 90) (F64.of_decimal 15 10))
           (F64.value (F64.of_Z 90)) (F64.value (F64.of_decimal 15 10))
           eq_refl eq_refl eq_refl).
  - vm_compute. discriminate.
  - vm_compute. reflexivity.
  - reflexivity.
  - reflexivity.
  - vm_compute. discriminate.
  - vm_compute. reflexivity.
Defined.

(** With any other unit string (the interface offers "mmol/L", its
    default) the stored glucose enters the GKI unconverted: for cells in the
    same range [GKI * ketone] is within the relative error [5 * 2^-53] of
    the stored [glucose], in either mode; so the index is about [M] times
    the one obtained with "mg/dL". *)
Theorem gki_other_unit_is_raw_ratio (df : DataFrame)
    (unit_glucose unit_ketone gki_mode : string)
    (debug : bool) (i : nat) (r : reading) (qg qk : Q) :
  unit_glucose <> "mg/dL" ->
  nth_error df i = Some r ->
  F64.valid (Glycemie r) = true -> F64.to_Q (Glycemie r) = Some qg ->
  (F64.pow2 (-400) <= Qabs qg)%Q -> (Qabs qg < F64.pow2 400)%Q ->
  F64.valid (Cetonemie r) = true -> F64.to_Q (Cetonemie r) = Some qk ->
  (F64.pow2 (-400) <= Qabs qk)%Q -> (Qabs qk < F64.pow2 400)%Q ->
  exists d,
    nth_error (returned (prepare_df_plot df unit_glucose unit_ketone gki_mode debug)) i
      = Some d /\
    F64.is_finite (GKI d) = true /\
    (Qabs (F64.value (GKI d) * qk - qg) <= 5 * u * Qabs qg)%Q.
Proof.
  intros Hu Hr Hvg Hqg Hg1 Hg2 Hvk Hqk Hk1 Hk2. apply String.eqb_neq in Hu.
  rewrite prepare_df_plot_rows, nth_error_map, Hr.
  exists (row_derived unit_glucose gki_mode r). split; [reflexivity|].
  unfold row_derived. cbn [GKI].
  destruct (gki_row_normal unit_glucose gki_mode _ _ qg qk
              Hvg Hqg Hg1 Hg2 Hvk Hqk Hk1 Hk2)
    as (n & z & -> & -> & Hfin & HQz & HQn).
  split; [exact Hfin|]. rewrite Hu in HQn. rewrite u_value in *.
  set (T := (F64.value z * qk)%Q) in *. set (N := F64.value n) in *.
  clearbody T N. revert HQz HQn. qabs_cases; intros HQz HQn; lra.
Qed.

Lemma gki_other_unit_is_raw_ratio_witness :
  exists d,
    nth_error (returned (prepare_df_plot test_df "mmol/L" "mmol/L" mode_full_mmol false)) 0
      = Some d /\
    F64.is_finite (GKI d) = true /\
    (Qabs (F64.value (GKI d) * F64.value (F64.of_decimal 15 10)
           - F64.value (F64.of_Z 90))
     <= 5 * u * Qabs (F64.value (F64.of_Z 90)))%Q.
Proof.
  apply (gki_other_unit_is_raw_ratio test_df "mmol/L" "mmol/L" mode_full_mmol false 0
           (mk_reading "01/01/2024" "12:00" (mk_datetime 1 1 2024 12 0)
              (F64.of_Z 90) (F64.of_decimal 15 10))
           (F64.value (F64.of_Z 90)) (F64.value (F64.of_decimal 15 10))).
  - discriminate.
  - reflexivity.
  - reflexivity.
  - reflexivity.
  - vm_compute. discriminate.
  - vm_compute. reflexivity.
  - reflexivity.
  - reflexivity.
  - vm_compute. discriminate.
  - vm_compute. reflexivity.
Defined.

(** ** The chart and the statistics *)

Lemma filter_block {A : Type} (name parametre : string)
    (ts : A -> datetime) (v : A -> float) (l : list A) :
  filter (fun r => String.eqb (Parametre r) parametre)
         (map (fun d => mk_long (ts d) name (v d)) l)
  = if String.eqb name parametre
    then map (fun d => mk_long (ts d) name (v d)) l
    else [].
Proof.
  induction l as [|a l IH]; cbn [map filter Parametre].
  - destruct (String.eqb name parametre); reflexivity.
  - rewrite IH. destruct (String.eqb name parametre); reflexivity.
Qed.

Lemma trace_melt (parametre : string) (df_plot : list derived) :
  trace parametre (melt df_plot)
  = ((if String.eqb "Glycémie" parametre
      then map (fun d => (Datetime (source d), Glycemie (source d))) df_plot else [])
     ++ (if String.eqb "Cétonémie" parametre
         then map (fun d => (Datetime (source d), Cetonemie (source d))) df_plot else [])
     ++ (if String.eqb "GKI" parametre
         then map (fun d => (Datetime (source d), GKI d)) df_plot else []))%list.
Proof.
  unfold trace, melt. rewrite !filter_app, !map_app, !filter_block.
  destruct (String.eqb "Glycémie" parametre),
           (String.eqb "Cétonémie" parametre),
           (String.eqb "GKI" parametre);
    rewrite ?map_map; reflexivity.
Qed.

(** The long table has three rows per reading, and each of the three lines
    of the chart gets back exactly one column with its timestamps, in input
    order.  The glucose and ketone lines are the stored columns whatever
    units and mode are selected: the converted display column is not what
    is drawn, only the GKI line depends on the configuration. *)
Theorem chart_lines (df : DataFrame) (unit_glucose unit_ketone gki_mode : string)
    (debug : bool) :
  List.length (melt (returned (prepare_df_plot df unit_glucose unit_ketone gki_mode debug)))
    = (3 * List.length df)%nat /\
  trace "Glycémie"
        (melt (returned (prepare_df_plot df unit_glucose unit_ketone gki_mode debug)))
    = map (fun r => (Datetime r, Glycemie r)) df /\
  trace "Cétonémie"
        (melt (returned (prepare_df_plot df unit_glucose unit_ketone gki_mode debug)))
    = map (fun r => (Datetime r, Cetonemie r)) df /\
  trace "GKI"
        (melt (returned (prepare_df_plot df unit_glucose unit_ketone gki_mode debug)))
    = map (fun r => (Datetime r,
                     F64.div (row_gly_mmol unit_glucose gki_mode (Glycemie r))
                             (Cetonemie r))) df.
Proof.
  rewrite !trace_melt, prepare_df_plot_rows.
  split.
  - unfold melt. rewrite !length_app, !List.length_map. lia.
  - cbn [String.eqb Ascii.eqb Bool.eqb andb]. rewrite !app_nil_r, !map_map.
    split; [reflexivity|]. split; reflexivity.
Qed.

(** The statistics read the stored columns too: the count is the number of
    input rows, and the glucose and ketone means are taken over the stored
    values, so the number shown does not follow the unit printed after it. *)
Theorem metrics_read_stored_columns (mean : Series -> float)
    (fmt1 fmt2 : float -> string) (df : DataFrame)
    (unit_glucose unit_ketone gki_mode : string) (debug : bool) :
  metrics mean fmt1 fmt2
          (returned (prepare_df_plot df unit_glucose unit_ketone gki_mode debug))
          unit_glucose unit_ketone
  = (List.length df,
     (fmt1 (mean (map Glycemie df)) ++ " " ++ unit_glucose)%string,
     (fmt2 (mean (map Cetonemie df)) ++ " " ++ unit_ketone)%string,
     fmt2 (mean (series_div (gly_mmol df unit_glucose gki_mode) (map Cetonemie df)))).
Proof.
  unfold metrics. rewrite prepare_df_plot_rows, gly_mmol_rows, series_div_map.
  rewrite List.length_map, !map_map. reflexivity.
Qed.

(** ** The password gate *)

(** One run of the gate lets the page through exactly when the session was
    already authenticated, and leaves the session authenticated exactly when
    it was already or a non-empty password equal to the secret was typed. *)
Theorem gate_sound (session : option bool) (password : string) (secret : option string) :
  (snd (gate session password secret) = Continue <-> session = Some true) /\
  (fst (gate session password secret) = Some true
   <-> session = Some true \/ (password <> "" /\ secret = Some password)).
Proof.
  unfold gate.
  destruct session as [[|]|]; cbn [negb fst snd];
    (split; [split; intros H; try reflexivity; try discriminate|]).
  - split; intros _; [left|]; reflexivity.
  - destruct (String.eqb_spec password ""); cbn [negb] in H;
      [discriminate|]. destruct secret as [a|]; [|discriminate].
    destruct (String.eqb password a); discriminate.
  - destruct (String.eqb_spec password "") as [->|Hne]; cbn [negb fst].
    + split; [discriminate|]. intros [H|[H _]]; [discriminate | contradiction].
    + destruct secret as [a|]; cbn [fst].
      * destruct (String.eqb_spec password a) as [->|Hpa]; cbn [fst].
        -- split; intros _; [right; split; [exact Hne | reflexivity] | reflexivity].
        -- split; [discriminate|]. intros [H|[_ H]]; [discriminate|].
           injection H as ->. contradiction.
      * split; [discriminate|]. intros [H|[_ H]]; discriminate.
  - destruct (String.eqb_spec password ""); cbn [negb] in H;
      [discriminate|]. destruct secret as [a|]; [|discriminate].
    destruct (String.eqb password a); discriminate.
  - destruct (String.eqb_spec password "") as [->|Hne]; cbn [negb fst].
    + split; [discriminate|]. intros [H|[H _]]; [discriminate | contradiction].
    + destruct secret as [a|]; cbn [fst].
      * destruct (String.eqb_spec password a) as [->|Hpa]; cbn [fst].
        -- split; intros _; [right; split; [exact Hne | reflexivity] | reflexivity].
        -- split; [discriminate|]. intros [H|[_ H]]; [discriminate|].
           injection H as ->. contradiction.
      * split; [discriminate|]. intros [H|[_ H]]; discriminate.
Qed.

(** The secret is looked up only for a non-empty input in a session that is
    not authenticated: the missing-key failure happens exactly then, and an
    empty input stops the page silently, never authenticates (not even when
    the configured secret is the empty string) and never fails. *)
Theorem gate_secret_lookup (session : option bool) (password : string)
    (secret : option string) :
  (snd (gate session password secret) = SecretMissing
   <-> session <> Some true /\ password <> "" /\ secret = None) /\
  (session <> Some true ->
   gate session "" secret = (Some false, Stop false)).
Proof.
  unfold gate. split.
  - destruct session as [[|]|]; cbn [negb snd].
    + split; [discriminate|]. intros [H _]. contradiction.
    + destruct (String.eqb_spec password "") as [->|Hne]; cbn [negb snd].
      * split; [discriminate|]. intros (_ & H & _). contradiction.
      * destruct secret as [a|].
        -- destruct (String.eqb password a); cbn [snd];
             (split; [discriminate|]); intros (_ & _ & H); discriminate.
        -- cbn [snd]. split; intros _; [|reflexivity].
           split; [discriminate|]. split; [exact Hne | reflexivity].
    + destruct (String.eqb_spec password "") as [->|Hne]; cbn [negb snd].
      * split; [discriminate|]. intros (_ & H & _). contradiction.
      * destruct secret as [a|].
        -- destruct (String.eqb password a); cbn [snd];
             (split; [discriminate|]); intros (_ & _ & H); discriminate.
        -- cbn [snd]. split; intros _; [|reflexivity].
           split; [discriminate|]. split; [exact Hne | reflexivity].
  - intros Hs. destruct session as [[|]|]; [contradiction | reflexivity | reflexivity].
Qed.

Lemma runs_cons (session : option bool) (secret : option string)
    (password : string) (inputs : list string) :
  runs session secret (password :: inputs)
  = (fst (runs (fst (gate session password secret)) secret inputs),
     snd (gate session password secret)
       :: snd (runs (fst (gate session password secret)) secret inputs)).
Proof.
  cbn [runs]. destruct (gate session password secret) as [s' o].
  cbn [fst snd]. destruct (runs s' secret inputs) as [s'' os]. reflexivity.
Qed.

Lemma continue_needs_password (secret : option string) (inputs : list string) :
  forall (session : option bool) (j : nat),
    nth_error (snd (runs session secret inputs)) j = Some Continue ->
    session = Some true \/
    exists password,
      In password (firstn j inputs) /\ password <> "" /\ secret = Some password.
Proof.
  induction inputs as [|pw inputs IH]; intros session j Hj.
  - destruct j; discriminate.
  - rewrite runs_cons in Hj. cbn [snd] in Hj.
    destruct (gate_sound session pw secret) as [Hc Ha].
    destruct j as [|j]; cbn [nth_error] in Hj.
    + left. apply Hc. injection Hj as Hj. exact Hj.
    + destruct (IH _ _ Hj) as [Hs|(p & Hin & Hne & Hsec)].
      * apply Ha in Hs. destruct Hs as [Hs|[Hne Hsec]]; [left; exact Hs|].
        right. exists pw. split; [left; reflexivity|]. split; assumption.
      * right. exists p. split; [right; exact Hin|]. split; assumption.
Qed.

(** Over any sequence of runs of a fresh session, the page is let through at
    a run only if a non-empty password equal to the configured secret was
    typed at an earlier run. *)
Theorem no_page_before_password (secret : option string) (inputs : list string)
    (j : nat) :
  nth_error (snd (runs None secret inputs)) j = Some Continue ->
  exists password,
    In password (firstn j inputs) /\ password <> "" /\ secret = Some password.
Proof.
  intros Hj. destruct (continue_needs_password secret inputs None j Hj) as [H|H];
    [discriminate | exact H].
Qed.

Lemma no_page_before_password_witness :
  exists password,
    In password (firstn 2 ["devine"; "s3cret"; ""]) /\
    password <> "" /\ Some "s3cret" = Some password.
Proof.
  apply (no_page_before_password (Some "s3cret") ["devine"; "s3cret"; ""] 2).
  reflexivity.
Defined.

(** Once a session is authenticated it stays so: every later run lets the
    page through, whatever the text input holds and whatever the configured
    secret has become. *)
Theorem authenticated_session_persists (secret : option string) (inputs : list string) :
  runs (Some true) secret inputs = (Some true, map (fun _ => Continue) inputs).
Proof.
  induction inputs as [|pw inputs IH]; [reflexivity|].
  rewrite runs_cons. cbn [gate negb fst snd]. rewrite IH. reflexivity.
Qed.
